(** * MultiPing: the polling engine and the terminal renderers of [cli.py]

    A shallow embedding of [src/MultiPing/cli.py].  Python [str] values are
    Rocq strings restricted to the ASCII range (Unicode digits and Unicode
    white space outside it are not modelled), Python [dict]s are [gmap]s,
    the module globals are passed explicitly, and everything the program
    asks of its environment (the resolver, the ping subprocess, the file
    system, the clock) is an explicit outcome handed to the function. *)

From Stdlib Require Import ZArith QArith Ascii String List Lia Lqa.
From stdpp Require Import base option list strings gmap pretty sorting.

Local Open Scope string_scope.

(** ** Python string primitives *)

Module Py.

(** [str.isspace] on the ASCII range: TAB..CR, FS..US and the space. *)
Definition isspace (c : ascii) : bool :=
  let n := nat_of_ascii c in
  ((9 <=? n)%nat && (n <=? 13)%nat) || ((28 <=? n)%nat && (n <=? 32)%nat).

(** [str.isdigit] on the ASCII range. *)
Definition isdigit (c : ascii) : bool :=
  let n := nat_of_ascii c in (48 <=? n)%nat && (n <=? 57)%nat.

Definition is_empty (s : string) : bool :=
  match s with EmptyString => true | String _ _ => false end.

Fixpoint lstrip (s : string) : string :=
  match s with
  | EmptyString => EmptyString
  | String c s' => if isspace c then lstrip s' else s
  end.

Fixpoint rstrip (s : string) : string :=
  match s with
  | EmptyString => EmptyString
  | String c s' =>
      let r := rstrip s' in
      if isspace c && is_empty r then EmptyString else String c r
  end.

(** [s.strip()] *)
Definition strip (s : string) : string := rstrip (lstrip s).

(** [s.startswith(p)] *)
Fixpoint startswith (p s : string) : bool :=
  match p, s with
  | EmptyString, _ => true
  | String a p', String b s' => if Ascii.eqb a b then startswith p' s' else false
  | String _ _, EmptyString => false
  end.

(** [p in s] for strings. *)
Fixpoint contains (p s : string) : bool :=
  startswith p s ||
  match s with
  | EmptyString => false
  | String _ s' => contains p s'
  end.

(** [s.count(c)] for a one-character [c]. *)
Fixpoint count (c : ascii) (s : string) : nat :=
  match s with
  | EmptyString => 0
  | String a s' => (if Ascii.eqb a c then 1 else 0) + count c s'
  end.

(** [all(p(c) for c in s)] *)
Fixpoint all (p : ascii -> bool) (s : string) : bool :=
  match s with
  | EmptyString => true
  | String a s' => p a && all p s'
  end.

(** [s.split(c)]: never empty, [n] separators give [n + 1] fields. *)
Fixpoint split (c : ascii) (s : string) : list string :=
  match s with
  | EmptyString => [EmptyString]
  | String a s' =>
      if Ascii.eqb a c then EmptyString :: split c s'
      else match split c s' with
           | [] => [String a EmptyString]
           | f :: fs => String a f :: fs
           end
  end.

(** [s.split(c, 1)] when [c in s]: the text before and after the first
    [c]; [None] when [c] does not occur (Python then returns [[s]]). *)
Fixpoint split1 (c : ascii) (s : string) : option (string * string) :=
  match s with
  | EmptyString => None
  | String a s' =>
      if Ascii.eqb a c then Some (EmptyString, s')
      else match split1 c s' with
           | Some (u, v) => Some (String a u, v)
           | None => None
           end
  end.

(** [sep.join(l)] *)
Fixpoint join (sep : string) (l : list string) : string :=
  match l with
  | [] => EmptyString
  | [x] => x
  | x :: xs => x ++ sep ++ join sep xs
  end.

(** [s[:n]] *)
Fixpoint take (n : nat) (s : string) : string :=
  match n, s with
  | S n', String a s' => String a (take n' s')
  | _, _ => EmptyString
  end.

(** [c * n] for a one-character [c]. *)
Fixpoint repeat (c : ascii) (n : nat) : string :=
  match n with
  | O => EmptyString
  | S n' => String c (repeat c n')
  end.

(** The format spec [{s:<w}]: pad on the right with spaces up to width
    [w], never truncate. *)
Definition ljust (w : nat) (s : string) : string :=
  s ++ repeat " "%char (w - String.length s).

(** [s.upper()] on the ASCII range. *)
Definition upper_char (c : ascii) : ascii :=
  let n := nat_of_ascii c in
  if (97 <=? n)%nat && (n <=? 122)%nat then ascii_of_nat (n - 32) else c.

Fixpoint upper (s : string) : string :=
  match s with
  | EmptyString => EmptyString
  | String a s' => String (upper_char a) (upper s')
  end.

(** Value of a string of decimal digits read left to right, on top of
    the accumulator [acc]. *)
Fixpoint digits_value (acc : Z) (s : string) : Z :=
  match s with
  | EmptyString => acc
  | String a s' => digits_value (10 * acc + (Z.of_nat (nat_of_ascii a) - 48)) s'
  end.

(** [int(s)] for the strings [ip_to_int] can pass to it, which are made
    of digits only: the empty string raises [ValueError] ([None]), any
    other one is read in base ten (leading zeros allowed).  The
    interpreter's limit on the number of digits is not modelled. *)
Definition int (s : string) : option Z :=
  if is_empty s then None
  else if all isdigit s then Some (digits_value 0 s)
  else None.

End Py.

(** ** [ip_to_int] and the display order *)

(** What [ip_to_int] returns: an [int], or [float('inf')]. *)
Inductive sortkey : Type :=
  | KInt (n : Z)
  | KInf.

(** Python's [<=] between two such keys. *)
Definition key_leb (a b : sortkey) : bool :=
  match a, b with
  | KInt x, KInt y => (x <=? y)%Z
  | KInt _, KInf => true
  | KInf, KInt _ => false
  | KInf, KInf => true
  end.

Definition key_le (a b : sortkey) : Prop := key_leb a b = true.

Definition is_dot_or_digit (c : ascii) : bool :=
  Py.isdigit c || Ascii.eqb c "."%char.

Definition ip_to_int (ip : string) : sortkey :=
  if Py.all is_dot_or_digit ip && (Py.count "."%char ip =? 3)%nat then
    match Py.split "."%char ip with
    | [p0; p1; p2; p3] =>
        match Py.int p0, Py.int p1, Py.int p2, Py.int p3 with
        | Some a, Some b, Some c, Some d =>
            KInt (Z.shiftl a 24 + Z.shiftl b 16 + Z.shiftl c 8 + d)
        | _, _, _, _ => KInf     (* ValueError, swallowed by [except:] *)
        end
    | _ => KInf
    end
  else KInf.

(** [sorted(l, key=k)]: the builtin is a stable sort, modelled by stable
    insertion (an element goes in front of the first one whose key is not
    smaller, hence in front of its equals that came later). *)
Section Sorted.
Context {A : Type} (k : A -> sortkey).

Fixpoint insert_by (x : A) (l : list A) : list A :=
  match l with
  | [] => [x]
  | y :: l' =>
      if key_leb (k x) (k y) then x :: y :: l' else y :: insert_by x l'
  end.

Definition sorted (l : list A) : list A := foldr insert_by [] l.

(** [a] may stand in front of [b] in the sorted list. *)
Definition key_rel (a b : A) : Prop := key_le (k a) (k b).

(** The key of [a] is a number. *)
Definition finite_key (a : A) : bool :=
  match k a with KInt _ => true | KInf => false end.
End Sorted.

(** ** Python floats

    The program parses, compares and prints floats.  Their arithmetic is
    kept behind an interface, so that every statement below holds for any
    implementation of it, binary64 included. *)

Class PyFloat : Type := {
  pyfloat : Type;
  (** [float(s)]; [None] stands for [ValueError]. *)
  float_of_str : string -> option pyfloat;
  (** The literals [0], [1], [100.0] and [1000]. *)
  f0 : pyfloat;
  f1 : pyfloat;
  f100 : pyfloat;
  f1000 : pyfloat;
  (** [x == y] and [x < y]. *)
  feqb : pyfloat -> pyfloat -> bool;
  fltb : pyfloat -> pyfloat -> bool;
  fmul : pyfloat -> pyfloat -> pyfloat;
  (** [int(x)]: the integer, or the text of the exception raised. *)
  ftrunc : pyfloat -> string + Z;
  (** [str(x)] and [f"{x:.1f}"]. *)
  frepr : pyfloat -> string;
  ffix1 : pyfloat -> string;
  feqb_100 : feqb f100 f100 = true
}.

(** ** The prober: [ping_host] *)

(** Python values stored in a result dictionary. *)
Inductive pyval `{PyFloat} : Type :=
  | VNone
  | VStr (s : string)
  | VFloat (x : pyfloat)
  | VTime (t : string).

Inductive platform : Type := Darwin | Win32 | OtherOS.

(** Outcome of [socket.gethostbyname(host)]. *)
Inductive resolve_outcome : Type :=
  | Resolved
  | GaiError
  | ResolveRaises (msg : string).

(** Outcome of [subprocess.Popen(...)] followed by [communicate()]. *)
Inductive process_outcome : Type :=
  | ProcessRaises (msg : string)
  | Exited (returncode : Z) (stdout stderr : string).

(** What one call of [ping_host] meets in its environment.  A [datetime]
    is kept as the text [str] prints for it,
    [YYYY-MM-DD HH:MM:SS.ffffff]. *)
Record probe_world : Type := {
  now : string;
  gethostbyname : resolve_outcome;
  communicate : process_outcome
}.

(** What [ping_host] asks of the operating system, in order. *)
Inductive event : Type :=
  | EvResolve (host : string)
  | EvPopen (cmd : list string).

Module Re.

Fixpoint take_while (p : ascii -> bool) (s : string) : string :=
  match s with
  | EmptyString => EmptyString
  | String a s' => if p a then String a (take_while p s') else EmptyString
  end.

Fixpoint drop (n : nat) (s : string) : string :=
  match n, s with
  | S n', String _ s' => drop n' s'
  | _, _ => s
  end.

(** [time[=<]([0-9.]+)] anchored at the head of [s]: the captured group
    and the length of the whole match. *)
Definition match_time_at (s : string) : option (string * nat) :=
  if Py.startswith "time" s then
    match drop 4 s with
    | String c rest =>
        if Ascii.eqb c "="%char || Ascii.eqb c "<"%char then
          let cap := take_while is_dot_or_digit rest in
          if Py.is_empty cap then None else Some (cap, 5 + String.length cap)
        else None
    | EmptyString => None
    end
  else None.

(** [re.findall] scans left to right and resumes after each match;
    [skip] counts the characters of the last match still to pass. *)
Fixpoint findall_time_from (skip : nat) (s : string) : list string :=
  match s with
  | EmptyString => []
  | String _ s' =>
      match skip with
      | S k => findall_time_from k s'
      | O =>
          match match_time_at s with
          | Some (cap, len) => cap :: findall_time_from (len - 1) s'
          | None => findall_time_from 0 s'
          end
      end
  end.

(** [re.findall(r'time[=<]([0-9.]+)', s)] *)
Definition findall_time (s : string) : list string := findall_time_from 0 s.

(** [(\d+(?:\.\d+)?)% packet loss] anchored at the head of [s].  Both
    repetitions are greedy and giving characters back never helps: the
    character after a shortened run of digits is a digit, neither [.]
    nor [%]. *)
Definition match_loss_at (s : string) : option string :=
  let a := take_while Py.isdigit s in
  if Py.is_empty a then None
  else
    let r := drop (String.length a) s in
    let fraction :=
      match r with
      | String c r' =>
          if Ascii.eqb c "."%char then
            let b := take_while Py.isdigit r' in
            if Py.is_empty b then None
            else Some (b, drop (String.length b) r')
          else None
      | EmptyString => None
      end in
    match fraction with
    | Some (b, r'') =>
        if Py.startswith "% packet loss" r'' then Some (a ++ "." ++ b) else None
    | None =>
        if Py.startswith "% packet loss" r then Some a else None
    end.

(** [re.search(r'(\d+(?:\.\d+)?)% packet loss', s)]: group 1 of the
    leftmost match. *)
Fixpoint search_loss (s : string) : option string :=
  match match_loss_at s with
  | Some g => Some g
  | None =>
      match s with
      | EmptyString => None
      | String _ s' => search_loss s'
      end
  end.

End Re.

Section Prober.
Context `{PyFloat}.

(** The globals [ping_host] reads. *)
Record probe_config : Type := {
  sys_platform : platform;
  ping_count : Z;
  ping_timeout : pyfloat
}.

(** [str(int(x))] *)
Definition str_int (x : pyfloat) : string + string :=
  match ftrunc x with
  | inl e => inl e
  | inr n => inr (pretty n)
  end.

(** The command line; [inl] is the text of an exception from [int]. *)
Definition ping_command (cfg : probe_config) (host : string)
  : string + list string :=
  match sys_platform cfg with
  | Darwin =>
      match str_int (fmul (ping_timeout cfg) f1000) with
      | inl e => inl e
      | inr ms => inr ["/sbin/ping"; "-c"; pretty (ping_count cfg); "-W"; ms; host]
      end
  | Win32 =>
      match str_int (fmul (ping_timeout cfg) f1000) with
      | inl e => inl e
      | inr ms => inr ["ping"; "-n"; pretty (ping_count cfg); "-w"; ms; host]
      end
  | OtherOS =>
      match str_int (ping_timeout cfg) with
      | inl e => inl e
      | inr sec => inr ["ping"; "-c"; pretty (ping_count cfg); "-W"; sec; host]
      end
  end.

(** The dictionary [ping_host] starts from. *)
Definition initial_result (host : string) (t : string) : gmap string pyval :=
  <["host" := VStr host]>
  (<["status" := VStr "unknown"]>
  (<["latency" := VNone]>
  (<["timestamp" := VTime t]>
  (<["message" := VStr ""]>
  (<["packet_loss" := VFloat f100]> ∅))))).

(** [float(s)], with the text of its [ValueError]. *)
Definition py_float (s : string) : string + pyfloat :=
  match float_of_str s with
  | Some x => inr x
  | None => inl ("could not convert string to float: '" ++ s ++ "'")
  end.

(** The [if process.returncode == 0:] branch.  The dictionary is
    mutated in place, so an exception leaves the writes made before it;
    [inl (e, r)] is "raised [e] with the dictionary as [r]". *)
Definition parse_success (stdout : string) (result : gmap string pyval)
  : (string * gmap string pyval) + gmap string pyval :=
  let result := <["status" := VStr "up"]> result in
  let latency_step : (string * gmap string pyval) + gmap string pyval :=
    if Py.contains "time=" stdout || Py.contains "time<" stdout then
      match last (Re.findall_time stdout) with
      | Some m =>
          match py_float m with
          | inl e => inl (e, result)
          | inr x => inr (<["latency" := VFloat x]> result)
          end
      | None => inr result
      end
    else inr result in
  match latency_step with
  | inl err => inl err
  | inr result =>
      match Re.search_loss stdout with
      | Some g =>
          match py_float g with
          | inl e => inl (e, result)
          | inr x =>
              let result := <["packet_loss" := VFloat x]> result in
              if feqb x f100 then inr (<["status" := VStr "down"]> result)
              else inr result
          end
      | None => inr result
      end
  end.

(** The [else:] branch of the return-code test. *)
Definition parse_failure (stderr : string) (result : gmap string pyval)
  : gmap string pyval :=
  let result := <["status" := VStr "down"]> result in
  if Py.is_empty stderr then <["message" := VStr "Host is unreachable"]> result
  else <["message" := VStr (Py.strip stderr)]> result.

(** The handler [except Exception as e:]. *)
Definition on_exception (e : string) (result : gmap string pyval)
  : gmap string pyval :=
  <["message" := VStr e]> (<["status" := VStr "error"]> result).

(** [ping_host(host)]: the dictionary returned and the requests made. *)
Definition ping_host (cfg : probe_config) (w : probe_world) (host : string)
  : gmap string pyval * list event :=
  let result := initial_result host (now w) in
  match gethostbyname w with
  | GaiError =>
      (<["message" := VStr "Cannot resolve hostname"]>
         (<["status" := VStr "error"]> result),
       [EvResolve host])
  | ResolveRaises e => (on_exception e result, [EvResolve host])
  | Resolved =>
      match ping_command cfg host with
      | inl e => (on_exception e result, [EvResolve host])
      | inr cmd =>
          let trace := [EvResolve host; EvPopen cmd] in
          match communicate w with
          | ProcessRaises e => (on_exception e result, trace)
          | Exited rc stdout stderr =>
              if (rc =? 0)%Z then
                match parse_success stdout result with
                | inl (e, result) => (on_exception e result, trace)
                | inr result => (result, trace)
                end
              else (parse_failure stderr result, trace)
          end
      end
  end.

End Prober.

(** ** The hosts file and its reload *)

(** Exceptions that leave a function of the program. *)
Inductive exn : Type :=
  | SystemExit (code : Z)
  | NameError (name : string)
  | KeyError (key : string)
  | AttributeError
  | TypeError.

(** How a call ends. *)
Inductive control : Type :=
  | Returned
  | Raised (e : exn).

(** What [open(filename)] and the iteration over its lines give. *)
Inductive read_outcome : Type :=
  | ReadRaises (msg : string)
  | ReadLines (lines : list string).

(** What one call of [check_file_changes] meets in the file system. *)
Record fs_world : Type := {
  path_exists : bool;           (* os.path.exists(devices_file) *)
  getmtime : option Q;          (* os.path.getmtime; None: OSError *)
  file_read : read_outcome
}.

Definition nl : string := String (ascii_of_nat 10) EmptyString.
Definition esc : string := String (ascii_of_nat 27) EmptyString.

(** [print(s)] and [print(s, end='')] as the text they write. *)
Definition println (s : string) : string := s ++ nl.

(** The body of the loop over the lines of the file. *)
Definition parse_line (acc : list string * gmap string string) (line : string)
  : list string * gmap string string :=
  let '(hosts, host_names) := acc in
  let line := Py.strip line in
  if Py.is_empty line || Py.startswith "#" line then acc
  else
    match Py.split1 ":"%char line with
    | Some (u, v) =>
        let name := Py.strip u in
        let host := Py.strip v in
        ((hosts ++ [host])%list, <[host := name]> host_names)
    | None => ((hosts ++ [line])%list, host_names)
    end.

Definition parse_lines (lines : list string) : list string * gmap string string :=
  foldl parse_line ([], ∅) lines.

(** [read_hosts_from_file(filename)]: the pair returned, or the
    [SystemExit] of [sys.exit(1)], with what was printed. *)
Definition read_hosts_from_file (filename : string) (r : read_outcome)
  : (exn + list string * gmap string string) * list string :=
  match r with
  | ReadRaises e =>
      (inl (SystemExit 1), [println ("Error reading hosts file: " ++ e)])
  | ReadLines lines =>
      let '(hosts, host_names) := parse_lines lines in
      match hosts with
      | [] => (inl (SystemExit 1), [println ("No valid hosts found in " ++ filename)])
      | _ :: _ => (inr (hosts, host_names), [])
      end
  end.

Section Engine.
Context `{PyFloat}.

(** The module globals of the polling engine. *)
Record globals : Type := {
  hosts : list string;
  host_names : gmap string string;
  results : gmap string (gmap string pyval);
  devices_file : option string;
  last_file_mtime : Q
}.

(** [not devices_file] *)
Definition no_devices_file (g : globals) : bool :=
  match devices_file g with
  | None => true
  | Some f => Py.is_empty f
  end.

(** [for host in removed_hosts: del results[host]] *)
Definition delete_all (removed : gset string)
    (results : gmap string (gmap string pyval)) : gmap string (gmap string pyval) :=
  set_fold (fun host acc => delete host acc) results removed.

(** [check_file_changes()]: the globals it leaves, what it printed and
    how it ended. *)
Definition check_file_changes (fs : fs_world) (g : globals)
  : globals * list string * control :=
  if no_devices_file g || negb (path_exists fs) then (g, [], Returned)
  else
    match getmtime fs with
    | None => (g, [], Returned)          (* OSError: [pass] *)
    | Some current_mtime =>
        if negb (Qle_bool current_mtime (last_file_mtime g)) then
          let g1 := {| hosts := hosts g; host_names := host_names g;
                       results := results g; devices_file := devices_file g;
                       last_file_mtime := current_mtime |} in
          match read_hosts_from_file (default "" (devices_file g)) (file_read fs) with
          | (inl e, out) => (g1, out, Raised e)
          | (inr (new_hosts, new_host_names), out) =>
              if bool_decide (new_hosts ≠ hosts g1)
                 || bool_decide (new_host_names ≠ host_names g1) then
                let removed_hosts : gset string :=
                  dom (results g1) ∖ list_to_set new_hosts in
                let g2 := {| hosts := new_hosts; host_names := new_host_names;
                             results := delete_all removed_hosts (results g1);
                             devices_file := devices_file g1;
                             last_file_mtime := last_file_mtime g1 |} in
                let updated := "ðŸ”„ Updated: " ++ pretty (length new_hosts) ++ " devices" in
                let minus := " (-" ++ pretty (size removed_hosts) ++ ")" in
                let out1 := (out ++ [updated])%list in
                let out2 :=
                  if bool_decide (removed_hosts = ∅) then out1
                  else (out1 ++ [minus])%list in
                (* [if added_hosts:] reads a name bound nowhere *)
                (g2, out2, Raised (NameError "added_hosts"))
              else (g1, out, Returned)
          end
        else (g, [], Returned)
    end.

(** What the [i]-th turn of the loop over the hosts meets: the value of
    [running] it reads and the world of its probe. *)
Record turn : Type := {
  running_seen : bool;
  world : probe_world
}.

(** [for host in current_hosts: ...] of [ping_worker], from turn [i]. *)
Fixpoint probe_loop (cfg : probe_config) (env : nat -> turn) (i : nat)
    (current_hosts : list string) (results : gmap string (gmap string pyval))
  : gmap string (gmap string pyval) * list event :=
  match current_hosts with
  | [] => (results, [])
  | host :: rest =>
      if negb (running_seen (env i)) then (results, [])       (* break *)
      else
        let '(result, ev) := ping_host cfg (world (env i)) host in
        let '(results', evs) := probe_loop cfg env (S i) rest (<[host := result]> results) in
        (results', (ev ++ evs)%list)
  end.

(** One turn of [while running:] in [ping_worker(host_list)]. *)
Definition poll_cycle (cfg : probe_config) (fs : fs_world) (env : nat -> turn)
    (host_list : list string) (g : globals)
  : globals * list string * list event * control :=
  match check_file_changes fs g with
  | (g', out, Raised e) => (g', out, [], Raised e)
  | (g', out, Returned) =>
      let current_hosts :=
        match hosts g' with [] => host_list | _ :: _ => hosts g' end in
      let '(results', evs) := probe_loop cfg env 0 current_hosts (results g') in
      ({| hosts := hosts g'; host_names := host_names g'; results := results';
          devices_file := devices_file g'; last_file_mtime := last_file_mtime g' |},
       out, evs, Returned)
  end.

(** [hosts = list(dict.fromkeys(hosts))] *)
Definition fromkeys (l : list string) : list string :=
  foldl (fun acc x => if bool_decide (x ∈ acc) then acc else (acc ++ [x])%list) [] l.

(** [host_names.get(host, host)], the name every renderer shows. *)
Definition display_name (host_names : gmap string string) (host : string) : string :=
  default host (host_names !! host).


(** The file branch of [main]: read the file into the still empty
    [host_names] and drop repeated hosts. *)
Definition load_hosts (filename : string) (r : read_outcome)
  : (exn + list string * gmap string string) * list string :=
  match read_hosts_from_file filename r with
  | (inl e, out) => (inl e, out)
  | (inr (hosts, file_host_names), out) =>
      (inr (fromkeys hosts, file_host_names ∪ (∅ : gmap string string)), out)
  end.

End Engine.

(** ** The renderers *)

(** The colour codes of [Fore] and [Style]. *)
Record palette : Type := {
  GREEN : string;
  RED : string;
  YELLOW : string;
  WHITE : string;
  RESET_ALL : string
}.

(** With colorama installed. *)
Definition colorama : palette :=
  {| GREEN := esc ++ "[32m"; RED := esc ++ "[31m"; YELLOW := esc ++ "[33m";
     WHITE := esc ++ "[37m"; RESET_ALL := esc ++ "[0m" |}.

(** The fallback classes, all empty. *)
Definition no_colour : palette :=
  {| GREEN := ""; RED := ""; YELLOW := ""; WHITE := ""; RESET_ALL := "" |}.

(** [dt.strftime('%H:%M:%S')] *)
Definition strftime_hms (dt : string) : string := String.substring 11 8 dt.

Definition bind_exn {A B : Type} (m : exn + A) (k : A -> exn + B) : exn + B :=
  match m with
  | inl e => inl e
  | inr a => k a
  end.

Notation "'let*' x ':=' m 'in' k" := (bind_exn m (fun x => k))
  (at level 10, x name, m at level 100, k at level 200).

Section Renderers.
Context `{PyFloat}.
Variable pal : palette.

(** [r[k]] *)
Definition getitem (r : gmap string pyval) (k : string) : exn + pyval :=
  match r !! k with
  | Some v => inr v
  | None => inl (KeyError k)
  end.

(** [v == s] for a string literal [s]. *)
Definition status_is (s : string) (v : pyval) : bool :=
  match v with
  | VStr t => String.eqb t s
  | _ => false
  end.

(** [sum(1 for r in results.values() if r['status'] == s)] *)
Definition count_status (s : string) (results : gmap string (gmap string pyval))
  : exn + nat :=
  foldr (fun r acc =>
           let* n := acc in
           let* v := getitem r "status" in
           inr (if status_is s v then S n else n))
        (inr 0%nat) (map_to_list results).*2.

(** [if results:] *)
Definition nonempty (results : gmap string (gmap string pyval)) : bool :=
  negb (Nat.eqb (size results) 0).

Definition status_color (status : pyval) : string :=
  if status_is "up" status then GREEN pal
  else if status_is "down" status then RED pal
  else if status_is "error" status then YELLOW pal
  else WHITE pal.

Definition format_latency (latency : pyval) : exn + string :=
  match latency with
  | VNone => inr "N/A"
  | VFloat x => inr (if fltb x f1 then "<1 ms" else ffix1 x ++ " ms")
  | VStr _ | VTime _ => inl TypeError
  end.

(** [status.upper()] *)
Definition status_upper (status : pyval) : exn + string :=
  match status with
  | VStr s => inr (Py.upper s)
  | _ => inl AttributeError
  end.

(** [f"{packet_loss}%" if packet_loss is not None else "N/A"] *)
Definition packet_loss_str (packet_loss : pyval) : string :=
  match packet_loss with
  | VNone => "N/A"
  | VStr s => s ++ "%"
  | VFloat x => frepr x ++ "%"
  | VTime t => t ++ "%"
  end.

(** The text printed for one host by [display_results_detailed]. *)
Definition detailed_row (host_names : gmap string string)
    (results : gmap string (gmap string pyval)) (host : string) : exn + string :=
  let name := display_name host_names host in
  match results !! host with
  | Some result =>
      let* status := getitem result "status" in
      let* latency := getitem result "latency" in
      let* packet_loss := getitem result "packet_loss" in
      let* up := status_upper status in
      let status_str := status_color status ++ up ++ RESET_ALL pal in
      let* latency_str := format_latency latency in
      inr (println ("  " ++ Py.ljust 15 name ++ " " ++ Py.ljust 15 host ++ " "
                    ++ Py.ljust 6 status_str ++ " " ++ Py.ljust 8 latency_str ++ " "
                    ++ packet_loss_str packet_loss))
  | None =>
      inr (println ("  " ++ Py.ljust 15 name ++ " " ++ Py.ljust 15 host ++ " "
                    ++ Py.ljust 6 "WAITING" ++ " " ++ Py.ljust 8 "N/A" ++ " " ++ "N/A"))
  end.

(** Print the rows in turn; an exception stops the loop and leaves what
    was printed before it. *)
Fixpoint print_rows (row : string -> exn + string) (hs : list string)
  : list string * control :=
  match hs with
  | [] => ([], Returned)
  | host :: rest =>
      match row host with
      | inl e => ([], Raised e)
      | inr line =>
          let '(out, c) := print_rows row rest in (line :: out, c)
      end
  end.

(** The counts of the summary, in the order the program computes them. *)
Definition counts (results : gmap string (gmap string pyval))
  : exn + nat * nat * nat :=
  let* up_count := count_status "up" results in
  let* down_count := count_status "down" results in
  let* error_count := count_status "error" results in
  inr (up_count, down_count, error_count).

(** The summary line of [display_results_detailed] after its time. *)
Definition detailed_counts_text (c : nat * nat * nat) : string :=
  let '(up_count, down_count, error_count) := c in
  GREEN pal ++ "UP:" ++ pretty up_count ++ RESET_ALL pal ++ " "
  ++ RED pal ++ "DOWN:" ++ pretty down_count ++ RESET_ALL pal ++ " "
  ++ YELLOW pal ++ "ERROR:" ++ pretty error_count ++ RESET_ALL pal.

(** [display_results_detailed()], called when the clock reads [now]:
    what it printed and how it ended. *)
Definition display_results_detailed (now : string) (hosts : list string)
    (host_names : gmap string string) (results : gmap string (gmap string pyval))
  : list string * control :=
  if nonempty results then
    match counts results with
    | inl e => ([], Raised e)
    | inr c =>
        let summary :=
          println ("[" ++ strftime_hms now ++ "] " ++ detailed_counts_text c) in
        let sorted_hosts := sorted ip_to_int hosts in
        match print_rows (detailed_row host_names results) sorted_hosts with
        | (rows, Raised e) => (summary :: rows, Raised e)
        | (rows, Returned) => (summary :: (rows ++ [println ""])%list, Returned)
        end
    end
  else ([], Returned).

End Renderers.

(** ** The live renderer *)

(** The globals of [display_results_live]. *)
Record live_state : Type := {
  live_header_printed : bool;
  last_display_time : Q;
  display_counter : Z;
  device_lines : list string
}.

Definition live_initial : live_state :=
  {| live_header_printed := false; last_display_time := 0;
     display_counter := 0; device_lines := [] |}.

(** The name column: [name[:11] + "..."] when longer than 14. *)
Definition short_name (name : string) : string :=
  if (14 <? String.length name)%nat then Py.take 11 name ++ "..." else name.

Definition live_header : list string :=
  [ println (nl ++ Py.repeat "="%char 80);
    println "MultiPing - Live Network Monitor";
    println (Py.repeat "="%char 80);
    println (Py.ljust 15 "NAME" ++ " " ++ Py.ljust 18 "HOST" ++ " "
             ++ Py.ljust 8 "STATUS" ++ " " ++ Py.ljust 10 "LATENCY" ++ " "
             ++ Py.ljust 12 "PACKET LOSS");
    println (Py.repeat "="%char 80) ].

(** The row of a host no probe has answered for. *)
Definition waiting_line (host_names : gmap string string) (host : string) : string :=
  Py.ljust 15 (short_name (display_name host_names host)) ++ " "
  ++ Py.ljust 18 host ++ " " ++ Py.ljust 8 "WAITING" ++ " "
  ++ Py.ljust 10 "N/A" ++ " " ++ Py.ljust 12 "N/A".

Definition live_footer : list string :=
  [ println (Py.repeat "-"%char 80); println "Last Update: Initializing..." ].

Section Live.
Context `{PyFloat}.
Variable pal : palette.

(** The latency column of the live table. *)
Definition live_latency (latency : pyval) : exn + string :=
  match latency with
  | VNone => inr "N/A"
  | VFloat x =>
      inr (if fltb f0 x then
             if fltb x f1 then "<1 ms" else ffix1 x ++ " ms"
           else "N/A")
  | VStr _ | VTime _ => inl TypeError
  end.

(** The row of a host in the update branch. *)
Definition live_line (host_names : gmap string string)
    (results : gmap string (gmap string pyval)) (host : string) : exn + string :=
  let name := short_name (display_name host_names host) in
  match results !! host with
  | Some result =>
      let* status := getitem result "status" in
      let* latency := getitem result "latency" in
      let* packet_loss := getitem result "packet_loss" in
      let* latency_str := live_latency latency in
      let loss := packet_loss_str packet_loss in
      let '(colour, status_display) :=
        if status_is "up" status then (GREEN pal, "UP")
        else if status_is "down" status then (RED pal, "DOWN")
        else (YELLOW pal, "ERROR") in
      inr (Py.ljust 15 name ++ " " ++ Py.ljust 18 host ++ " "
           ++ colour ++ Py.ljust 8 status_display ++ RESET_ALL pal ++ " "
           ++ Py.ljust 10 latency_str ++ " " ++ Py.ljust 12 loss)
  | None => inr (waiting_line host_names host)
  end.

(** [for i, host in enumerate(sorted_hosts):] from index [i]: the lines
    cache it leaves, what it printed and how it ended. *)
Fixpoint update_lines (host_names : gmap string string)
    (results : gmap string (gmap string pyval)) (i : nat) (hs : list string)
    (lines : list string) : list string * list string * control :=
  match hs with
  | [] => (lines, [], Returned)
  | host :: rest =>
      if (i <? length lines)%nat then
        match live_line host_names results host with
        | inl e => (lines, [], Raised e)
        | inr line =>
            let '(lines', out, c) :=
              update_lines host_names results (S i) rest (<[i := line]> lines) in
            (lines', (esc ++ "[K") :: println line :: out, c)
        end
      else update_lines host_names results (S i) rest lines
  end.

(** [display_results_live()], called when [time.time()] gives
    [current_time] and the clock reads [now]. *)
Definition display_results_live (current_time : Q) (now : string)
    (hosts : list string) (host_names : gmap string string)
    (results : gmap string (gmap string pyval)) (st : live_state)
  : live_state * list string * control :=
  if negb (live_header_printed st) then
    let sorted_hosts := sorted ip_to_int hosts in
    let lines := map (waiting_line host_names) sorted_hosts in
    ({| live_header_printed := true; last_display_time := current_time;
        display_counter := display_counter st; device_lines := lines |},
     (live_header ++ map println lines ++ live_footer)%list, Returned)
  else if Qlt_le_dec (current_time - last_display_time st) (1 # 2) then
    (st, [], Returned)
  else
    let counter := (display_counter st + 1)%Z in
    if nonempty results then
      let sorted_hosts := sorted ip_to_int hosts in
      let lines_to_move_up := (length (device_lines st) + 2)%nat in
      let up := esc ++ "[" ++ pretty lines_to_move_up ++ "A" in
      let clear := esc ++ "[K" in
      let '(lines, out, c) :=
        update_lines host_names results 0 sorted_hosts (device_lines st) in
      let st' := {| live_header_printed := true; last_display_time := current_time;
                    display_counter := counter; device_lines := lines |} in
      match c with
      | Raised e => (st', up :: out, Raised e)
      | Returned =>
          match counts results with
          | inl e => (st', up :: out, Raised e)
          | inr (up_count, down_count, error_count) =>
              let summary :=
                "Last Update: " ++ strftime_hms now ++ " | UP:" ++ pretty up_count
                ++ " DOWN:" ++ pretty down_count ++ " ERR:" ++ pretty error_count in
              (st',
               (up :: out ++ [println (Py.repeat "-"%char 80); clear;
                              println summary])%list,
               Returned)
          end
      end
    else
      ({| live_header_printed := true; last_display_time := current_time;
          display_counter := counter; device_lines := device_lines st |},
       [], Returned).

(** What one call of the renderer is given. *)
Record live_call : Type := {
  call_time : Q;
  call_now : string;
  call_hosts : list string;
  call_names : gmap string string;
  call_results : gmap string (gmap string pyval)
}.

Definition live_step (st : live_state) (c : live_call)
  : live_state * list string * control :=
  display_results_live (call_time c) (call_now c) (call_hosts c) (call_names c)
    (call_results c) st.

(** The state before each call of a series and after the last one; a
    call that raises leaves its state behind like any other, since the
    render loop of [main] is the only caller and the globals survive. *)
Fixpoint live_run (st : live_state) (cs : list live_call) : live_state :=
  match cs with
  | [] => st
  | c :: cs' => live_run (live_step st c).1.1 cs'
  end.

End Live.

(** ** An executable implementation of the float interface

    Exact decimal fractions.  It reads the strings the program gives to
    [float] (runs of digits and dots) and agrees with binary64 on the
    short decimals of the examples below; it serves to run the model. *)

Module Decimal.

Definition digit_char (d : Z) : ascii := ascii_of_nat (48 + Z.to_nat d).

(** [float(s)] for [s] made of digits and dots. *)
Definition of_str (s : string) : option Q :=
  match Py.split "."%char s with
  | [a] =>
      match Py.int a with
      | Some n => Some (inject_Z n)
      | None => None
      end
  | [a; b] =>
      if Py.all Py.isdigit a && Py.all Py.isdigit b
         && negb (Py.is_empty a && Py.is_empty b) then
        Some (Qred (inject_Z (Py.digits_value 0 a)
                    + Qmake (Py.digits_value 0 b)
                            (Z.to_pos (10 ^ Z.of_nat (String.length b)))))
      else None
  | _ => None
  end.

Definition ltb (x y : Q) : bool := negb (Qle_bool y x).

(** [int(x)] rounds towards zero. *)
Definition trunc (x : Q) : string + Z := inr (Z.quot (Qnum x) (Zpos (Qden x))).

(** The digits of [num / den < 1] after the point, at most [fuel]. *)
Fixpoint frac_digits (fuel : nat) (num den : Z) : string :=
  match fuel with
  | O => EmptyString
  | S fuel' =>
      let n10 := (10 * num)%Z in
      let r := (n10 mod den)%Z in
      String (digit_char (n10 / den))
             (if (r =? 0)%Z then EmptyString else frac_digits fuel' r den)
  end.

Definition repr (x : Q) : string :=
  let n := Z.abs (Qnum x) in
  let d := Zpos (Qden x) in
  (if (Qnum x <? 0)%Z then "-" else "")
  ++ pretty (n / d)%Z ++ "." ++ frac_digits 17 (n mod d)%Z d.

(** One digit after the point, ties to even. *)
Definition fix1 (x : Q) : string :=
  let n10 := (10 * Z.abs (Qnum x))%Z in
  let d := Zpos (Qden x) in
  let q := (n10 / d)%Z in
  let r := (n10 mod d)%Z in
  let q' :=
    if (d <? 2 * r)%Z then (q + 1)%Z
    else if (2 * r =? d)%Z then (if Z.odd q then q + 1 else q)%Z
    else q in
  (if (Qnum x <? 0)%Z then "-" else "")
  ++ pretty (q' / 10)%Z ++ "." ++ pretty (q' mod 10)%Z.

End Decimal.

#[export] Instance decimal_float : PyFloat := {|
  pyfloat := Q;
  float_of_str := Decimal.of_str;
  f0 := 0%Q;
  f1 := 1%Q;
  f100 := 100%Q;
  f1000 := 1000%Q;
  feqb := Qeq_bool;
  fltb := Decimal.ltb;
  fmul := Qmult;
  ftrunc := Decimal.trunc;
  frepr := Decimal.repr;
  ffix1 := Decimal.fix1;
  feqb_100 := eq_refl
|}.

(** ** Vocabulary of the statements *)

(** An unsigned integer in decimal: a non-empty run of digits. *)
Definition unsigned_integer (t : string) : Prop :=
  t <> "" /\ Py.all Py.isdigit t = true.

(** [s] is four unsigned integers [a], [b], [c], [d] separated by dots. *)
Definition dotted_quad (s a b c d : string) : Prop :=
  s = a ++ "." ++ b ++ "." ++ c ++ "." ++ d
  /\ unsigned_integer a /\ unsigned_integer b
  /\ unsigned_integer c /\ unsigned_integer d.

(** The value [(a<<24)+(b<<16)+(c<<8)+d] of such a string. *)
Definition quad_value (a b c d : string) : Z :=
  (Z.shiftl (Py.digits_value 0 a) 24 + Z.shiftl (Py.digits_value 0 b) 16
   + Z.shiftl (Py.digits_value 0 c) 8 + Py.digits_value 0 d)%Z.

(** The hosts [ip_to_int] gives a number to, and the others. *)
Definition is_ipv4 (s : string) : bool := finite_key ip_to_int s.

Definition not_ipv4 (s : string) : bool := negb (is_ipv4 s).

(** The keys of a result dictionary. *)
Definition result_keys : gset string :=
  {[ "host"; "status"; "latency"; "timestamp"; "message"; "packet_loss" ]}.

(** The dictionary [r] has one of the statuses [l]. *)
Definition status_in `{PyFloat} (l : list string) (r : gmap string pyval) : Prop :=
  exists s, r !! "status" = Some (VStr s) /\ s ∈ l.

(** A probe that got no answer from its host: the name did not resolve,
    the command could not be built or launched, or ping exited with a
    failure (a timeout included). *)
Definition probe_failed `{PyFloat} (cfg : probe_config) (w : probe_world)
    (host : string) : Prop :=
  gethostbyname w <> Resolved
  \/ (exists e, ping_command cfg host = inl e)
  \/ (exists e, communicate w = ProcessRaises e)
  \/ (exists rc out err, communicate w = Exited rc out err /\ rc <> 0%Z).

(** The devices file is there, newer than the last one read, and parses
    to the hosts [new_hosts] with the names [new_names]. *)
Definition reload_reads `{PyFloat} (fs : fs_world) (g : globals)
    (new_hosts : list string) (new_names : gmap string string) : Prop :=
  no_devices_file g = false
  /\ path_exists fs = true
  /\ (exists mtime lines,
        getmtime fs = Some mtime /\ (last_file_mtime g < mtime)%Q
        /\ file_read fs = ReadLines lines
        /\ parse_lines lines = (new_hosts, new_names))
  /\ new_hosts <> [].

(** The devices file is there and newer, and reading it fails or finds
    no host in it. *)
Definition reload_fails `{PyFloat} (fs : fs_world) (g : globals) : Prop :=
  no_devices_file g = false
  /\ path_exists fs = true
  /\ (exists mtime, getmtime fs = Some mtime /\ (last_file_mtime g < mtime)%Q)
  /\ ((exists e, file_read fs = ReadRaises e)
      \/ (exists lines, file_read fs = ReadLines lines /\ (parse_lines lines).1 = [])).



(** ** Sample runs, on the decimal floats *)

Module Sample.

Definition linux : probe_config :=
  {| sys_platform := OtherOS; ping_count := 1; ping_timeout := 1%Q |}.

Definition windows : probe_config :=
  {| sys_platform := Win32; ping_count := 1; ping_timeout := 1%Q |}.

Definition at_noon : string := "2024-05-01 12:00:00.250000".
Definition just_after_noon : string := "2024-05-01 12:00:00.750000".
Definition a_second_later : string := "2024-05-01 12:00:01.250000".

(** What Linux ping prints for a host that answers. *)
Definition linux_stdout : string :=
  "PING 10.0.0.1 (10.0.0.1) 56(84) bytes of data." ++ nl
  ++ "64 bytes from 10.0.0.1: icmp_seq=1 ttl=64 time=12.3 ms" ++ nl ++ nl
  ++ "--- 10.0.0.1 ping statistics ---" ++ nl
  ++ "1 packets transmitted, 1 received, 0% packet loss, time 0ms" ++ nl
  ++ "rtt min/avg/max/mdev = 12.3/12.3/12.3/0.000 ms" ++ nl.

(** What Windows ping prints for a host that answers. *)
Definition windows_stdout : string :=
  nl ++ "Pinging 10.0.0.1 with 32 bytes of data:" ++ nl
  ++ "Reply from 10.0.0.1: bytes=32 time=3ms TTL=64" ++ nl ++ nl
  ++ "Ping statistics for 10.0.0.1:" ++ nl
  ++ "    Packets: Sent = 1, Received = 1, Lost = 0 (0% loss)," ++ nl
  ++ "Approximate round trip times in milli-seconds:" ++ nl
  ++ "    Minimum = 3ms, Maximum = 3ms, Average = 3ms" ++ nl.

Definition answers : probe_world :=
  {| now := at_noon; gethostbyname := Resolved;
     communicate := Exited 0 linux_stdout "" |}.

Definition answers_on_windows : probe_world :=
  {| now := at_noon; gethostbyname := Resolved;
     communicate := Exited 0 windows_stdout "" |}.

Definition unresolvable : probe_world :=
  {| now := at_noon; gethostbyname := GaiError;
     communicate := ProcessRaises "never launched" |}.

Definition silent : probe_world :=
  {| now := at_noon; gethostbyname := Resolved;
     communicate := Exited 2 "" "" |}.

Definition host_a : string := "10.0.0.1".
Definition host_b : string := "10.0.0.2".
Definition host_c : string := "10.0.0.3".

(** A cycle in which the second of three hosts does not resolve. *)
Definition second_fails (i : nat) : turn :=
  {| running_seen := true;
     world := match i with
              | 0%nat => answers
              | 1%nat => unresolvable
              | _ => silent
              end |}.

Definition record_a : gmap string pyval := (ping_host linux answers host_a).1.
Definition record_b : gmap string pyval := (ping_host linux silent host_b).1.

(** The engine watching [devices.txt], with both hosts probed. *)
Definition watching : globals :=
  {| hosts := [host_a; host_b];
     host_names := ∅;
     results := <[host_a := record_a]> (<[host_b := record_b]> ∅);
     devices_file := Some "devices.txt";
     last_file_mtime := 1 |}.

(** The file rewritten to list the hosts B and C. *)
Definition rewritten : fs_world :=
  {| path_exists := true; getmtime := Some 2%Q;
     file_read := ReadLines [host_b; host_c] |}.

(** The file touched but no longer readable. *)
Definition unreadable : fs_world :=
  {| path_exists := true; getmtime := Some 2%Q;
     file_read := ReadRaises "[Errno 13] Permission denied: 'devices.txt'" |}.

(** The file caught empty while an editor rewrites it. *)
Definition emptied : fs_world :=
  {| path_exists := true; getmtime := Some 2%Q; file_read := ReadLines [] |}.

(** The hosts file of the parsing example. *)
Definition hosts_file : list string :=
  ["alpha:10.0.0.1" ++ nl; "10.0.0.2" ++ nl; "# comment" ++ nl; nl].


Definition one_result : gmap string (gmap string pyval) := {[ host_a := record_a ]}.

Definition live_call_at (t : Q) (clock : string)
    (results : gmap string (gmap string pyval)) : live_call :=
  {| call_time := t; call_now := clock; call_hosts := [host_a; host_b];
     call_names := ∅; call_results := results |}.

End Sample.

(** ** The one-line renderers *)

Section OneLine.
Context `{PyFloat}.
Variable pal : palette.

(** The mark of one host in [display_results_simple]: [name:âœ“], [name:âœ—]
    or [name:?]; a host with no result gives none. *)
Definition simple_mark (host_names : gmap string string)
    (results : gmap string (gmap string pyval)) (host : string) : exn + option string :=
  let name := display_name host_names host in
  match results !! host with
  | Some result =>
      let* status := getitem result "status" in
      inr (Some (if status_is "up" status then name ++ ":" ++ GREEN pal ++ "âœ“" ++ RESET_ALL pal
                 else if status_is "down" status then
                   name ++ ":" ++ RED pal ++ "âœ—" ++ RESET_ALL pal
                 else name ++ ":" ++ YELLOW pal ++ "?" ++ RESET_ALL pal))
  | None => inr None
  end.

(** The same in [display_results_compact], the name cut to eight
    characters. *)
Definition compact_mark (host_names : gmap string string)
    (results : gmap string (gmap string pyval)) (host : string) : exn + option string :=
  let name := Py.take 8 (display_name host_names host) in
  match results !! host with
  | Some result =>
      let* status := getitem result "status" in
      inr (Some (if status_is "up" status then name ++ ":" ++ GREEN pal ++ "âœ“" ++ RESET_ALL pal
                 else if status_is "down" status then
                   name ++ ":" ++ RED pal ++ "âœ—" ++ RESET_ALL pal
                 else name ++ ":" ++ YELLOW pal ++ "?" ++ RESET_ALL pal))
  | None => inr None
  end.

(** The loop that fills [device_status]; an exception leaves it. *)
Fixpoint device_marks (mark : string -> exn + option string) (hs : list string)
  : exn + list string :=
  match hs with
  | [] => inr []
  | host :: rest =>
      let* m := mark host in
      let* ms := device_marks mark rest in
      inr (match m with Some x => x :: ms | None => ms end)
  end.

(** [display_results_simple()], called when the clock reads [now]. *)
Definition display_results_simple (now : string) (hosts : list string)
    (host_names : gmap string string) (results : gmap string (gmap string pyval))
  : list string * control :=
  if nonempty results then
    match counts results with
    | inl e => ([], Raised e)
    | inr (up_count, down_count, error_count) =>
        let status_line :=
          "[" ++ strftime_hms now ++ "] "
          ++ GREEN pal ++ "UP:" ++ pretty up_count ++ RESET_ALL pal ++ " "
          ++ RED pal ++ "DOWN:" ++ pretty down_count ++ RESET_ALL pal ++ " "
          ++ YELLOW pal ++ "ERROR:" ++ pretty error_count ++ RESET_ALL pal in
        let sorted_hosts := sorted ip_to_int hosts in
        match device_marks (simple_mark host_names results) (take 5 sorted_hosts) with
        | inl e => ([], Raised e)
        | inr [] => ([println status_line], Returned)
        | inr device_status =>
            ([println (status_line ++ " | " ++ Py.join " " device_status)], Returned)
        end
    end
  else ([], Returned).

(** [display_results_compact()], called when the clock reads [now]. *)
Definition display_results_compact (now : string) (hosts : list string)
    (host_names : gmap string string) (results : gmap string (gmap string pyval))
  : list string * control :=
  if nonempty results then
    match counts results with
    | inl e => ([], Raised e)
    | inr (up_count, down_count, error_count) =>
        let line :=
          "[" ++ strftime_hms now ++ "] "
          ++ GREEN pal ++ pretty up_count ++ "âœ“" ++ RESET_ALL pal ++ " "
          ++ RED pal ++ pretty down_count ++ "âœ—" ++ RESET_ALL pal ++ " "
          ++ YELLOW pal ++ pretty error_count ++ "?" ++ RESET_ALL pal in
        let sorted_hosts := sorted ip_to_int hosts in
        match device_marks (compact_mark host_names results) (take 3 sorted_hosts) with
        | inl e => ([], Raised e)
        | inr [] => ([println line], Returned)
        | inr device_status =>
            ([println (line ++ " " ++ Py.join " " device_status)], Returned)
        end
    end
  else ([], Returned).

End OneLine.

(** ** The command line *)

(** What [parse_args()] hands back, as far as the hosts go.  An option
    that was not given is [None] in Python and the empty value here. *)
Record arguments : Type := {
  arg_file : option string;
  arg_hosts : list string;
  arg_names : list string
}.

(** [not args.file] *)
Definition no_file (a : arguments) : bool :=
  match arg_file a with
  | None => true
  | Some f => Py.is_empty f
  end.

(** The two checks at the end of [parse_arguments]; [parser.error] leaves
    with the exit status 2. *)
Definition parse_arguments (a : arguments) : exn + arguments :=
  if Nat.eqb (length (arg_hosts a)) 0 && no_file a then inl (SystemExit 2)
  else if negb (Nat.eqb (length (arg_hosts a)) 0)
          && negb (Nat.eqb (length (arg_names a)) 0)
          && negb (Nat.eqb (length (arg_hosts a)) (length (arg_names a)))
  then inl (SystemExit 2)
  else inr a.

(** [for i, host in enumerate(hosts): if i < len(names):
    host_names[host] = names[i]], from index [i]. *)
Fixpoint assign_names (names : list string) (i : nat) (hosts : list string)
    (host_names : gmap string string) : gmap string string :=
  match hosts with
  | [] => host_names
  | host :: rest =>
      assign_names names (S i) rest
        (match names !! i with
         | Some name => <[host := name]> host_names
         | None => host_names           (* [i >= len(names)] *)
         end)
  end.

(** The hosts and the names [main] starts with: from the file when one is
    given, from the command line otherwise, repeated hosts dropped. *)
Definition startup (a : arguments) (r : read_outcome)
  : (exn + list string * gmap string string) * list string :=
  match parse_arguments a with
  | inl e => (inl e, [])
  | inr a =>
      if negb (no_file a) then load_hosts (default "" (arg_file a)) r
      else
        match arg_hosts a with
        | [] => (inr (fromkeys [], ∅), [])
        | hosts => (inr (fromkeys hosts, assign_names (arg_names a) 0 hosts ∅), [])
        end
  end.

(** ** More vocabulary *)

(** A line of the hosts file the parser passes over: blank, or a comment. *)
Definition ignored_line (line : string) : bool :=
  Py.is_empty (Py.strip line) || Py.startswith "#" (Py.strip line).

(** A record the table renderers can print: a text for status, nothing or
    a number for latency, and a packet loss. *)
Definition renderable `{PyFloat} (r : gmap string pyval) : Prop :=
  (exists s, r !! "status" = Some (VStr s))
  /\ (r !! "latency" = Some VNone \/ exists x, r !! "latency" = Some (VFloat x))
  /\ is_Some (r !! "packet_loss").

(** Every record of the table is filed under the host it is about. *)
Definition keyed_by_host `{PyFloat} (results : gmap string (gmap string pyval)) : Prop :=
  forall h r, results !! h = Some r -> r !! "host" = Some (VStr h).

Definition is_resolve (e : event) : bool :=
  match e with EvResolve _ => true | EvPopen _ => false end.

Definition is_popen (e : event) : bool :=
  match e with EvResolve _ => false | EvPopen _ => true end.

(** A field of a dotted quad in the range of a byte. *)
Definition octet (t : string) : Prop :=
  unsigned_integer t /\ (Py.digits_value 0 t < 256)%Z.

(** The order of four numbers read left to right. *)
Definition lex4_le (a b c d a' b' c' d' : Z) : Prop :=
  (a < a')%Z
  \/ (a = a' /\ ((b < b')%Z
      \/ (b = b' /\ ((c < c')%Z \/ (c = c' /\ (d <= d')%Z))))).

(** ** More sample runs *)

Module Tour.

(** A turn whose loop finds [running] cleared from the second host on. *)
Definition stopped_after_one (i : nat) : turn :=
  {| running_seen := match i with 0%nat => true | _ => false end;
     world := Sample.answers |}.

(** [-H 10.0.0.1 gw -n core gateway] *)
Definition two_named : arguments :=
  {| arg_file := None; arg_hosts := ["10.0.0.1"; "gw"];
     arg_names := ["core"; "gateway"] |}.

(** [-f hosts.txt -H 10.0.0.1 gw -n core] *)
Definition one_name_short : arguments :=
  {| arg_file := Some "hosts.txt"; arg_hosts := ["10.0.0.1"; "gw"];
     arg_names := ["core"] |}.

(** The live renderer after its first call, for the two sample hosts. *)
Definition header_shown : live_state :=
  (live_step no_colour live_initial (Sample.live_call_at 0 Sample.at_noon ∅)).1.1.

(** A name with an empty label, such as [10.0.0..1]: for it
    [socket.gethostbyname] raises [UnicodeError], which is no
    [socket.gaierror]. *)
Definition empty_label : probe_world :=
  {| now := Sample.at_noon;
     gethostbyname :=
       ResolveRaises
         "encoding with 'idna' codec failed (UnicodeError: label empty or too long)";
     communicate := ProcessRaises "never launched" |}.

(** A first call of the live renderer: the hosts out of order, one of
    them under a name of more than fourteen characters, and a table
    that already holds a record. *)
Definition first_call : live_call :=
  {| call_time := 0; call_now := Sample.at_noon;
     call_hosts := [Sample.host_b; Sample.host_a];
     call_names := {[ Sample.host_a := "core-switch-rack-12" ]};
     call_results := Sample.one_result |}.

(** A file in which the last line naming 10.0.0.1 is followed by a line
    naming another host, a comment and the bare host. *)
Definition named_then_listed : list string :=
  ["alpha:10.0.0.1" ++ nl; "beta:10.0.0.1" ++ nl; "gamma:10.0.0.2" ++ nl;
   "# spare" ++ nl; "10.0.0.1" ++ nl].

End Tour.

(** * Properties *)

Local Open Scope list_scope.

(** ** The display order *)

Section SortedFacts.
Context {A : Type} (k : A -> sortkey).

Lemma key_leb_total a b : key_leb a b = false -> key_leb b a = true.
Proof. destruct a, b; simpl; try done. intros ?%Z.leb_gt. apply Z.leb_le. lia. Qed.

Lemma key_leb_trans a b c : key_leb a b = true -> key_leb b c = true -> key_leb a c = true.
Proof.
  destruct a, b, c; simpl; try done.
  intros ?%Z.leb_le ?%Z.leb_le. apply Z.leb_le. lia.
Qed.

Lemma insert_by_perm x l : insert_by k x l ≡ₚ x :: l.
Proof.
  induction l as [|y l IH]; simpl; [done|].
  destruct (key_leb (k x) (k y)); [done|].
  rewrite IH. apply Permutation_swap.
Qed.

Lemma sorted_perm l : sorted k l ≡ₚ l.
Proof.
  induction l as [|x l IH]; simpl; [done|].
  rewrite insert_by_perm. by rewrite IH.
Qed.

Lemma insert_by_sorted x l :
  StronglySorted (key_rel k) l -> StronglySorted (key_rel k) (insert_by k x l).
Proof.
  induction l as [|y l IH]; simpl; intros Hs.
  - repeat constructor.
  - apply StronglySorted_inv in Hs as [Hl Hy].
    destruct (key_leb (k x) (k y)) eqn:E.
    + constructor; [by constructor|].
      constructor; [exact E|].
      eapply Forall_impl; [exact Hy|]. intros z Hz.
      unfold key_rel, key_le in *. by eapply key_leb_trans.
    + constructor; [by apply IH|].
      rewrite insert_by_perm. constructor; [|done].
      by apply key_leb_total.
Qed.

Lemma sorted_sorted l : StronglySorted (key_rel k) (sorted k l).
Proof.
  induction l as [|x l IH]; simpl; [constructor|]. by apply insert_by_sorted.
Qed.
End SortedFacts.

Section Partition.
Context {A : Type} (k : A -> sortkey).
Notation fin := (finite_key k).

Lemma insert_by_inf x l1 l2 :
  k x = KInf -> Forall (fun a => fin a = true) l1 -> Forall (fun b => k b = KInf) l2 ->
  insert_by k x (l1 ++ l2) = l1 ++ x :: l2.
Proof.
  intros Hx H1 H2. induction H1 as [|a l1 Ha _ IH]; simpl.
  - destruct H2 as [|b l2 Hb _]; simpl; [done|]. by rewrite Hx, Hb.
  - unfold fin in Ha. rewrite Hx. destruct (k a); [|done]. simpl. by rewrite IH.
Qed.

Lemma insert_by_fin x l1 l2 :
  fin x = true -> Forall (fun b => k b = KInf) l2 ->
  insert_by k x (l1 ++ l2) = insert_by k x l1 ++ l2.
Proof.
  intros Hx H2. induction l1 as [|a l1 IH]; simpl.
  - unfold fin in Hx. destruct H2 as [|b l2 Hb _]; simpl; [done|].
    rewrite Hb. by destruct (k x).
  - destruct (key_leb (k x) (k a)); simpl; [done|]. by rewrite IH.
Qed.

Lemma sorted_partition l :
  sorted k l = sorted k (List.filter fin l) ++ List.filter (fun a => negb (fin a)) l.
Proof.
  induction l as [|x l IH]; simpl; [done|].
  assert (Hinf : Forall (fun b => k b = KInf) (List.filter (fun a => negb (fin a)) l)).
  { apply Forall_forall. intros b [_ Hb]%list_elem_of_In%filter_In.
    unfold fin in Hb. by destruct (k b). }
  destruct (fin x) eqn:E; simpl.
  - rewrite IH. by apply insert_by_fin.
  - rewrite IH. apply insert_by_inf; [unfold fin in E; by destruct (k x)| |done].
    apply Forall_forall. intros a Ha.
    rewrite sorted_perm in Ha. by apply list_elem_of_In, filter_In in Ha as [_ Ha].
Qed.
End Partition.

Lemma all_app p s t : Py.all p (s +:+ t) = Py.all p s && Py.all p t.
Proof. induction s as [|a s IH]; simpl; [done|]. rewrite IH. by destruct (p a). Qed.

Lemma count_app c s t : Py.count c (s +:+ t) = (Py.count c s + Py.count c t)%nat.
Proof. induction s as [|a s IH]; simpl; [done|]. rewrite IH. lia. Qed.

Lemma digits_no_dot s : Py.all Py.isdigit s = true -> Py.count "."%char s = 0%nat.
Proof.
  induction s as [|a s IH]; simpl; [done|].
  intros [Ha Hs]%andb_true_iff. rewrite IH by done.
  destruct (Ascii.eqb_spec a "."%char) as [->|]; [discriminate Ha|done].
Qed.

Lemma digits_dot_or_digit s : Py.all Py.isdigit s = true -> Py.all is_dot_or_digit s = true.
Proof.
  induction s as [|a s IH]; simpl; [done|].
  intros [Ha Hs]%andb_true_iff. unfold is_dot_or_digit at 1. rewrite Ha. simpl. by apply IH.
Qed.

Lemma split_no_sep c s : Py.count c s = 0%nat -> Py.split c s = [s].
Proof.
  induction s as [|a s IH]; simpl; [done|].
  destruct (Ascii.eqb a c); [done|]. simpl. intros Hs. by rewrite IH.
Qed.

Lemma split_app_sep c s t :
  Py.count c s = 0%nat ->
  Py.split c (s +:+ String c EmptyString +:+ t) = s :: Py.split c t.
Proof.
  induction s as [|a s IH]; simpl.
  - by rewrite Ascii.eqb_refl.
  - destruct (Ascii.eqb a c); [done|]. simpl. intros Hs. by rewrite IH.
Qed.

Lemma split_nonempty c s : Py.split c s <> [].
Proof.
  destruct s as [|a s]; simpl; [done|].
  destruct (Ascii.eqb a c); [done|]. by destruct (Py.split c s).
Qed.

Lemma join_split c s : Py.join (String c EmptyString) (Py.split c s) = s.
Proof.
  induction s as [|a s IH]; simpl; [done|].
  destruct (Ascii.eqb_spec a c) as [->|Hne].
  - destruct (Py.split c s) eqn:E; [by apply split_nonempty in E|].
    simpl in *. by rewrite IH.
  - destruct (Py.split c s) as [|f fs] eqn:E; [by apply split_nonempty in E|].
    simpl in *. destruct fs; simpl in *; by rewrite <- IH.
Qed.

Lemma int_Some s n :
  Py.int s = Some n <-> unsigned_integer s /\ n = Py.digits_value 0 s.
Proof.
  unfold Py.int, unsigned_integer. destruct s as [|a s]; simpl.
  - split; [done|]. by intros [[? _] _].
  - destruct (Py.isdigit a && Py.all Py.isdigit (s)) eqn:E; simpl.
    + split; [intros [= <-]; done|]. by intros [_ ->].
    + split; [done|]. by intros [[_ ?] _].
Qed.

Lemma ip_to_int_shape s v :
  ip_to_int s = KInt v <->
  exists a b c d, dotted_quad s a b c d /\ v = quad_value a b c d.
Proof.
  split.
  - unfold ip_to_int.
    destruct (Py.all is_dot_or_digit s && (Py.count "." s =? 3)%nat); [|done].
    pose proof (join_split "."%char s) as Hj.
    destruct (Py.split "." s) as [|p0 [|p1 [|p2 [|p3 [|? ?]]]]]; try done.
    destruct (Py.int p0) as [a|] eqn:E0; [|done].
    destruct (Py.int p1) as [b|] eqn:E1; [|done].
    destruct (Py.int p2) as [c|] eqn:E2; [|done].
    destruct (Py.int p3) as [d|] eqn:E3; [|done].
    apply int_Some in E0 as [? ->], E1 as [? ->], E2 as [? ->], E3 as [? ->].
    intros [= <-]. exists p0, p1, p2, p3. split; [|done].
    split; [|done]. simpl in Hj. by symmetry.
  - intros (a & b & c & d & (-> & Ha & Hb & Hc & Hd) & ->).
    pose proof Ha as [_ Ha']. pose proof Hb as [_ Hb'].
    pose proof Hc as [_ Hc']. pose proof Hd as [_ Hd'].
    unfold ip_to_int.
    rewrite !all_app, !count_app. simpl.
    rewrite !digits_dot_or_digit, !digits_no_dot by done. simpl.
    rewrite !split_app_sep, split_no_sep by (by apply digits_no_dot).
    assert (Hi : forall t, unsigned_integer t -> Py.int t = Some (Py.digits_value 0 t)).
    { intros t Ht. by apply int_Some. }
    by rewrite !Hi.
Qed.

Example ip_to_int_dotted : ip_to_int "1.2.3.4" = KInt 16909060.
Proof. reflexivity. Qed.

Example ip_to_int_empty_field : ip_to_int "1..3.4" = KInf.
Proof. reflexivity. Qed.

Example ip_to_int_name : ip_to_int "router.lan" = KInf.
Proof. reflexivity. Qed.

Example sorted_mixed :
  sorted ip_to_int ["b"; "10.0.0.2"; "a"; "9.0.0.1"; "10.0.0.1"]
  = ["9.0.0.1"; "10.0.0.1"; "10.0.0.2"; "b"; "a"].
Proof. reflexivity. Qed.

(** C3.  [ip_to_int] gives the value [(a<<24)+(b<<16)+(c<<8)+d] to
    exactly the strings made of four dot-separated unsigned integers and
    infinity to every other string.  Sorting a list of hosts with that key
    rearranges the list so that keys never decrease from left to right:
    the dotted quads come first, ascending by value, and every other host
    comes after all of them, in the order of the input. *)
Theorem display_order_by_ip_to_int (l : list string) :
  (forall s v, ip_to_int s = KInt v <->
               exists a b c d, dotted_quad s a b c d /\ v = quad_value a b c d)
  /\ sorted ip_to_int l ≡ₚ l
  /\ StronglySorted (key_rel ip_to_int) (sorted ip_to_int l)
  /\ sorted ip_to_int l
     = sorted ip_to_int (List.filter is_ipv4 l) ++ List.filter not_ipv4 l
  /\ Forall (fun s => is_ipv4 s = true) (sorted ip_to_int (List.filter is_ipv4 l))
  /\ List.filter not_ipv4 (sorted ip_to_int l) = List.filter not_ipv4 l.
Proof.
  assert (Hpart : sorted ip_to_int l
     = sorted ip_to_int (List.filter is_ipv4 l) ++ List.filter not_ipv4 l)
    by apply (sorted_partition ip_to_int).
  assert (Hfin : Forall (fun s => is_ipv4 s = true)
                   (sorted ip_to_int (List.filter is_ipv4 l))).
  { apply Forall_forall. intros a Ha. rewrite sorted_perm in Ha.
    by apply list_elem_of_In, filter_In in Ha as [_ Ha]. }
  split; [intros s v; apply ip_to_int_shape|].
  split; [apply sorted_perm|].
  split; [apply sorted_sorted|].
  split; [exact Hpart|].
  split; [exact Hfin|].
  rewrite Hpart at 1. rewrite List.filter_app.
  assert (H1 : forall m, Forall (fun s => is_ipv4 s = true) m ->
                         List.filter not_ipv4 m = []).
  { intros m Hm. induction Hm as [|a m Ha _ IH]; simpl; [done|].
    unfold not_ipv4 at 1. rewrite Ha. exact IH. }
  rewrite (H1 _ Hfin). simpl.
  clear. induction l as [|x l IH]; simpl; [done|].
  destruct (not_ipv4 x) eqn:E; simpl; rewrite ?E; by rewrite IH.
Qed.

(** ** The prober and the polling loop *)

Section ProberFacts.
Context {F : PyFloat}.
Implicit Types r : gmap string pyval.

Lemma dom_initial_result host t : dom (initial_result host t) = result_keys.
Proof.
  unfold initial_result, result_keys.
  rewrite !dom_insert_L, dom_empty_L. by rewrite (right_id_L ∅ (∪)).
Qed.

Lemma dom_set r k v :
  dom r = result_keys -> k ∈ result_keys -> dom (<[k := v]> r) = result_keys.
Proof.
  intros Hr Hk. rewrite dom_insert_L, Hr.
  by apply subseteq_union_1_L, singleton_subseteq_l.
Qed.

Ltac in_keys := apply (bool_decide_unpack _); by vm_compute.

Ltac solve_dom := repeat first [assumption | apply dom_set; [|in_keys]].

Lemma dom_on_exception e r : dom r = result_keys -> dom (on_exception e r) = result_keys.
Proof. intros Hr. unfold on_exception. solve_dom. Qed.

Lemma dom_parse_failure stderr r :
  dom r = result_keys -> dom (parse_failure stderr r) = result_keys.
Proof. intros Hr. unfold parse_failure. destruct (Py.is_empty stderr); solve_dom. Qed.

Lemma dom_parse_success stdout r :
  dom r = result_keys ->
  match parse_success stdout r with
  | inl (_, r') => dom r' = result_keys
  | inr r' => dom r' = result_keys
  end.
Proof.
  intros Hr. unfold parse_success.
  destruct (Py.contains "time=" stdout || Py.contains "time<" stdout);
    [destruct (last (Re.findall_time stdout)) as [m|];
       [destruct (py_float m) as [e|x]; [solve_dom|]|]|].
  all: destruct (Re.search_loss stdout) as [g|];
    [destruct (py_float g) as [e|y]; [|destruct (feqb y f100)]|].
  all: solve_dom.
Qed.

Lemma dom_ping_host cfg w host : dom (ping_host cfg w host).1 = result_keys.
Proof.
  pose proof (dom_initial_result host (now w)) as H0.
  unfold ping_host. destruct (gethostbyname w); simpl.
  - destruct (ping_command cfg host) as [e|cmd]; simpl; [by apply dom_on_exception|].
    destruct (communicate w) as [e|rc out err]; simpl; [by apply dom_on_exception|].
    destruct (rc =? 0)%Z; simpl; [|by apply dom_parse_failure].
    pose proof (dom_parse_success out _ H0) as Hp.
    destruct (parse_success out _) as [[e r']|r']; simpl; [by apply dom_on_exception|done].
  - solve_dom.
  - by apply dom_on_exception.
Qed.

Lemma status_on_exception e r : on_exception e r !! "status" = Some (VStr "error").
Proof. unfold on_exception. by simplify_map_eq. Qed.

Lemma status_parse_failure stderr r :
  parse_failure stderr r !! "status" = Some (VStr "down").
Proof. unfold parse_failure. destruct (Py.is_empty stderr); by simplify_map_eq. Qed.

Lemma status_parse_success stdout r r' :
  parse_success stdout r = inr r' ->
  r' !! "status" = Some (VStr "up") \/ r' !! "status" = Some (VStr "down").
Proof.
  unfold parse_success.
  destruct (Py.contains "time=" stdout || Py.contains "time<" stdout);
    [destruct (last (Re.findall_time stdout)) as [m|];
       [destruct (py_float m) as [e|x]; [done|]|]|].
  all: destruct (Re.search_loss stdout) as [g|];
    [destruct (py_float g) as [e|y]; [done|destruct (feqb y f100)]|].
  all: intros [= <-]; simplify_map_eq; auto.
Qed.

Lemma status_ping_host cfg w host :
  status_in ["up"; "down"; "error"] (ping_host cfg w host).1.
Proof.
  unfold ping_host, status_in. destruct (gethostbyname w); simpl.
  - destruct (ping_command cfg host) as [e|cmd]; simpl.
    { exists "error". rewrite status_on_exception. split; [done|]. set_solver. }
    destruct (communicate w) as [e|rc out err]; simpl.
    { exists "error". rewrite status_on_exception. split; [done|]. set_solver. }
    destruct (rc =? 0)%Z; simpl.
    + destruct (parse_success out _) as [[e r']|r'] eqn:E; simpl.
      { exists "error". rewrite status_on_exception. split; [done|]. set_solver. }
      apply status_parse_success in E as [E|E]; rewrite E; eexists; split; eauto; set_solver.
    + exists "down". rewrite status_parse_failure. set_solver.
  - exists "error". simplify_map_eq. set_solver.
  - exists "error". rewrite status_on_exception. split; [done|]. set_solver.
Qed.

Lemma loss_parse_success stdout r r' x :
  r !! "packet_loss" = Some (VFloat f100) ->
  parse_success stdout r = inr r' ->
  r' !! "packet_loss" = Some (VFloat x) -> feqb x f100 = true ->
  r' !! "status" = Some (VStr "down")
  \/ (Re.search_loss stdout = None /\ r' !! "status" = Some (VStr "up")).
Proof.
  intros Hr. unfold parse_success.
  destruct (Py.contains "time=" stdout || Py.contains "time<" stdout);
    [destruct (last (Re.findall_time stdout)) as [m|];
       [destruct (py_float m) as [e|y]; [done|]|]|].
  all: destruct (Re.search_loss stdout) as [g|];
    [destruct (py_float g) as [e|z]; [done|destruct (feqb z f100) eqn:E]|].
  all: intros [= <-]; simplify_map_eq; intros; simplify_eq; auto; congruence.
Qed.

Lemma full_loss_status cfg w host x :
  (ping_host cfg w host).1 !! "packet_loss" = Some (VFloat x) ->
  feqb x f100 = true ->
  status_in ["down"; "error"] (ping_host cfg w host).1
  \/ (exists out err,
        gethostbyname w = Resolved /\ communicate w = Exited 0 out err
        /\ Re.search_loss out = None
        /\ (ping_host cfg w host).1 !! "status" = Some (VStr "up")).
Proof.
  assert (Herr : forall r, r !! "status" = Some (VStr "error") ->
                           status_in ["down"; "error"] r).
  { intros r Hr. exists "error". split; [done|]. set_solver. }
  assert (Hdown : forall r, r !! "status" = Some (VStr "down") ->
                            status_in ["down"; "error"] r).
  { intros r Hr. exists "down". split; [done|]. set_solver. }
  unfold ping_host. destruct (gethostbyname w); simpl.
  - destruct (ping_command cfg host) as [e|cmd]; simpl.
    { intros _ _. left. apply Herr, status_on_exception. }
    destruct (communicate w) as [e|rc out err]; simpl.
    { intros _ _. left. apply Herr, status_on_exception. }
    destruct (Z.eqb_spec rc 0) as [->|Hrc]; simpl.
    + destruct (parse_success out _) as [[e r']|r'] eqn:E; simpl.
      { intros _ _. left. apply Herr, status_on_exception. }
      intros Hx Hfull.
      assert (Hinit : initial_result host (now w) !! "packet_loss" = Some (VFloat f100))
        by (unfold initial_result; by simplify_map_eq).
      destruct (loss_parse_success _ _ _ _ Hinit E Hx Hfull) as [E'|[E1 E2]].
      * left. by apply Hdown.
      * right. by exists out, err.
    + intros _ _. left. apply Hdown, status_parse_failure.
  - intros _ _. left. apply Herr. by simplify_map_eq.
  - intros _ _. left. apply Herr, status_on_exception.
Qed.

(** A resolution failure leaves the packet loss at its initial 100.0. *)
Lemma unresolved_keeps_initial_loss cfg w host :
  gethostbyname w = GaiError ->
  (ping_host cfg w host).1 !! "packet_loss" = Some (VFloat f100)
  /\ (ping_host cfg w host).1 !! "status" = Some (VStr "error").
Proof.
  intros Hw. unfold ping_host, initial_result. rewrite Hw. simpl.
  split; by simplify_map_eq.
Qed.

Lemma ping_host_resolves_first cfg w host :
  EvResolve host ∈ (ping_host cfg w host).2.
Proof.
  unfold ping_host. destruct (gethostbyname w); simpl; [|set_solver..].
  destruct (ping_command cfg host); simpl; [set_solver|].
  destruct (communicate w) as [|rc out err]; simpl; [set_solver|].
  destruct (rc =? 0)%Z; [|set_solver].
  destruct (parse_success _ _) as [[? ?]|?]; set_solver.
Qed.

Lemma failed_probe_status cfg w host :
  probe_failed cfg w host -> status_in ["down"; "error"] (ping_host cfg w host).1.
Proof.
  assert (Herr : forall r, r !! "status" = Some (VStr "error") ->
                           status_in ["down"; "error"] r).
  { intros r Hr. exists "error". split; [done|]. set_solver. }
  assert (Hdown : forall r, r !! "status" = Some (VStr "down") ->
                            status_in ["down"; "error"] r).
  { intros r Hr. exists "down". split; [done|]. set_solver. }
  intros Hf. unfold ping_host. destruct (gethostbyname w) eqn:Eg; simpl.
  - destruct (ping_command cfg host) as [e|cmd] eqn:Ec; simpl.
    { apply Herr, status_on_exception. }
    destruct (communicate w) as [e|rc out err] eqn:Ep; simpl.
    { apply Herr, status_on_exception. }
    destruct (Z.eqb_spec rc 0) as [->|Hrc]; simpl.
    + destruct Hf as [?|[[? ?]|[[? ?]|(? & ? & ? & ? & ?)]]]; congruence.
    + apply Hdown, status_parse_failure.
  - apply Herr. by simplify_map_eq.
  - apply Herr, status_on_exception.
Qed.

Lemma probe_loop_other cfg env hs : forall i res h,
  h ∉ hs -> (probe_loop cfg env i hs res).1 !! h = res !! h.
Proof.
  induction hs as [|h0 hs IH]; intros i res h Hh; simpl; [done|].
  destruct (running_seen (env i)); simpl; [|done].
  destruct (ping_host cfg (world (env i)) h0) as [r ev].
  specialize (IH (S i) (<[h0 := r]> res) h).
  destruct (probe_loop cfg env (S i) hs (<[h0 := r]> res)) as [res' evs]. simpl in *.
  rewrite IH by set_solver. apply lookup_insert_ne. set_solver.
Qed.

Lemma probe_loop_written cfg env hs : forall i res,
  (forall j, (j < length hs)%nat -> running_seen (env (i + j)%nat) = true) ->
  forall h, h ∈ hs ->
    exists j, hs !! j = Some h
      /\ (probe_loop cfg env i hs res).1 !! h
         = Some (ping_host cfg (world (env (i + j)%nat)) h).1
      /\ EvResolve h ∈ (probe_loop cfg env i hs res).2.
Proof.
  induction hs as [|h0 hs IH]; intros i res Hrun h Hh; [by apply elem_of_nil in Hh|].
  simpl. pose proof (Hrun 0%nat ltac:(simpl; lia)) as H0.
  rewrite Nat.add_0_r in H0. rewrite H0. simpl.
  pose proof (ping_host_resolves_first cfg (world (env i)) h0) as Hev.
  destruct (ping_host cfg (world (env i)) h0) as [r ev] eqn:Ep.
  pose proof (probe_loop_other cfg env hs (S i) (<[h0 := r]> res)) as Hother.
  specialize (IH (S i) (<[h0 := r]> res)).
  destruct (probe_loop cfg env (S i) hs (<[h0 := r]> res)) as [res' evs]. simpl in *.
  destruct (decide (h ∈ hs)) as [Hin|Hnot].
  - destruct (IH ltac:(intros j Hj; rewrite <- Nat.add_succ_r; apply Hrun; lia) h Hin)
      as (j & Hj & Hres & Hevs).
    exists (S j). rewrite Nat.add_succ_r. simpl. split_and!; [done|done|set_solver].
  - assert (h = h0) as -> by set_solver.
    exists 0%nat. rewrite Nat.add_0_r, Ep. simpl.
    split_and!; [done| |set_solver].
    rewrite Hother by done. apply lookup_insert_eq.
Qed.

Lemma poll_cycle_returns cfg fs env host_list g :
  (check_file_changes fs g).2 = Returned ->
  (poll_cycle cfg fs env host_list g).2 = Returned.
Proof.
  unfold poll_cycle. destruct (check_file_changes fs g) as [[g' out] c]. simpl.
  intros ->. by destruct (probe_loop _ _ _ _ _).
Qed.

Lemma upper_of_status r :
  status_in ["up"; "down"; "error"] r ->
  exists v, r !! "status" = Some v
            /\ status_upper v ∈ [inr "UP"; inr "DOWN"; inr "ERROR"].
Proof.
  intros (s & Hs & Hin). exists (VStr s). split; [done|].
  repeat (apply elem_of_cons in Hin as [->|Hin]; [simpl; set_solver|]).
  by apply elem_of_nil in Hin.
Qed.
End ProberFacts.

(** C10.  Whatever the host and whatever the resolver and the ping
    subprocess answer, the dictionary [ping_host] returns has exactly the
    six keys host, status, latency, timestamp, message and packet_loss,
    and its status is 'up', 'down' or 'error', never the initial
    'unknown'; the status cell the table prints for it is UP, DOWN or
    ERROR. *)
Theorem ping_host_record_shape `{PyFloat} (cfg : probe_config) (w : probe_world)
    (host : string) :
  dom (ping_host cfg w host).1 = result_keys
  /\ status_in ["up"; "down"; "error"] (ping_host cfg w host).1
  /\ (ping_host cfg w host).1 !! "status" <> Some (VStr "unknown")
  /\ exists v, (ping_host cfg w host).1 !! "status" = Some v
               /\ status_upper v ∈ [inr "UP"; inr "DOWN"; inr "ERROR"].
Proof.
  pose proof (status_ping_host cfg w host) as Hs.
  split_and!; [apply dom_ping_host|exact Hs| |by apply upper_of_status].
  destruct Hs as (s & -> & Hin). intros [= ->].
  repeat (apply elem_of_cons in Hin as [?|Hin]; [done|]).
  by apply elem_of_nil in Hin.
Qed.



(** C1, at the input where it fails.  A host that answers a Windows
    ping (exit code 0; the statistics read "(0% loss)", which is not the
    "% packet loss" the program looks for) is returned with status 'up'
    and with the packet loss left at its initial 100.0. *)
Theorem up_host_reported_with_full_loss :
  (ping_host Sample.windows Sample.answers_on_windows "10.0.0.1").1 !! "status"
  = Some (VStr "up")
  /\ (ping_host Sample.windows Sample.answers_on_windows "10.0.0.1").1 !! "packet_loss"
     = Some (VFloat f100)
  /\ feqb f100 f100 = true
  /\ Re.search_loss Sample.windows_stdout = None.
Proof. split_and!; reflexivity. Qed.

(** C4.  In a turn of the polling loop during which [running] stays
    set, every host of the list gets the record of its own probe written
    to the table and the other entries of the table are left alone,
    whatever each probe meets; a probe that fails (no resolution, no
    command, no launch, or a failing exit of ping such as a timeout) gives
    a record with status 'down' or 'error'; and once the reload check has
    returned, the turn returns too. *)
Theorem probe_failures_stay_with_their_host `{PyFloat} (cfg : probe_config)
    (env : nat -> turn) (hs : list string) (res : gmap string (gmap string pyval)) :
  (forall j, (j < length hs)%nat -> running_seen (env j) = true) ->
  (forall h, h ∈ hs ->
     exists j, hs !! j = Some h
       /\ (probe_loop cfg env 0 hs res).1 !! h = Some (ping_host cfg (world (env j)) h).1
       /\ EvResolve h ∈ (probe_loop cfg env 0 hs res).2)
  /\ (forall h, h ∉ hs -> (probe_loop cfg env 0 hs res).1 !! h = res !! h)
  /\ (forall w h, probe_failed cfg w h -> status_in ["down"; "error"] (ping_host cfg w h).1)
  /\ (forall fs host_list g,
        (check_file_changes fs g).2 = Returned ->
        (poll_cycle cfg fs env host_list g).2 = Returned).
Proof.
  intros Hrun. split_and!.
  - intros h Hh. by apply (probe_loop_written cfg env hs 0%nat res).
  - intros h Hh. by apply probe_loop_other.
  - apply failed_probe_status.
  - intros fs host_list g. apply poll_cycle_returns.
Qed.

Lemma probe_failures_stay_with_their_host_sample :
  (forall j, (j < 3)%nat -> running_seen (Sample.second_fails j) = true)
  /\ exists j, [Sample.host_a; Sample.host_b; Sample.host_c] !! j = Some Sample.host_c
       /\ (probe_loop Sample.linux Sample.second_fails 0
             [Sample.host_a; Sample.host_b; Sample.host_c] ∅).1 !! Sample.host_c
          = Some (ping_host Sample.linux (world (Sample.second_fails j)) Sample.host_c).1
       /\ EvResolve Sample.host_c
          ∈ (probe_loop Sample.linux Sample.second_fails 0
               [Sample.host_a; Sample.host_b; Sample.host_c] ∅).2.
Proof.
  assert (Hrun : forall j, (j < 3)%nat -> running_seen (Sample.second_fails j) = true)
    by (intros j _; reflexivity).
  split; [exact Hrun|].
  apply (proj1 (probe_failures_stay_with_their_host Sample.linux Sample.second_fails
                  [Sample.host_a; Sample.host_b; Sample.host_c] ∅ Hrun)).
  do 2 apply list_elem_of_further. apply list_elem_of_here.
Defined.

(** ** The hosts file and its reload *)

Section ReloadFacts.
Context {F : PyFloat}.
Implicit Types (g : globals) (res : gmap string (gmap string pyval)).

Lemma lookup_delete_all (X : gset string) res k :
  delete_all X res !! k = if decide (k ∈ X) then None else res !! k.
Proof.
  unfold delete_all.
  pose (P := fun (acc : gmap string (gmap string pyval)) (Y : gset string) =>
               acc !! k = if decide (k ∈ Y) then None else res !! k).
  apply (set_fold_ind_L P); unfold P.
  - by rewrite decide_False by set_solver.
  - intros x Y acc Hx IH.
    destruct (decide (k = x)) as [->|Hne].
    + rewrite lookup_delete_eq. by rewrite decide_True by set_solver.
    + rewrite lookup_delete_ne by done. rewrite IH.
      destruct (decide (k ∈ Y)).
      * by rewrite decide_True by set_solver.
      * by rewrite decide_False by set_solver.
Qed.

Lemma check_file_changes_adopts fs g new_hosts new_names :
  reload_reads fs g new_hosts new_names ->
  new_hosts <> hosts g \/ new_names <> host_names g ->
  hosts (check_file_changes fs g).1.1 = new_hosts
  /\ host_names (check_file_changes fs g).1.1 = new_names
  /\ (forall h, results (check_file_changes fs g).1.1 !! h
                = if decide (h ∈ new_hosts) then results g !! h else None)
  /\ (check_file_changes fs g).2 = Raised (NameError "added_hosts").
Proof.
  intros (Hdev & Hex & (mtime & lines & Hm & Hlt & Hread & Hparse) & Hne) Hdiff.
  unfold check_file_changes. rewrite Hdev, Hex, Hm. simpl.
  assert (Qle_bool mtime (last_file_mtime g) = false) as ->.
  { apply not_true_is_false. intros Hle%Qle_bool_iff. lra. }
  simpl. unfold read_hosts_from_file. rewrite Hread, Hparse.
  destruct new_hosts as [|h0 hs0]; [done|].
  assert (bool_decide (h0 :: hs0 ≠ hosts g) || bool_decide (new_names ≠ host_names g) = true)
    as ->.
  { destruct Hdiff; [rewrite bool_decide_eq_true_2 by done; done|].
    rewrite (bool_decide_eq_true_2 (new_names ≠ _)) by done. apply orb_true_r. }
  simpl. split_and!; try done.
  intros h. rewrite lookup_delete_all.
  destruct (decide (h ∈ h0 :: hs0)) as [Hin|Hnot].
  - rewrite decide_False; [done|]. set_solver.
  - destruct (results g !! h) eqn:E.
    + rewrite decide_True; [done|].
      apply elem_of_difference. split; [by apply elem_of_dom|]. set_solver.
    + by destruct (decide _).
Qed.

Lemma check_file_changes_unavailable fs g :
  no_devices_file g = true \/ path_exists fs = false \/ getmtime fs = None ->
  check_file_changes fs g = (g, [], Returned).
Proof.
  unfold check_file_changes. intros [->|[->|Hm]]; [done|by rewrite orb_true_r|].
  rewrite Hm. by destruct (no_devices_file g || negb (path_exists fs)).
Qed.

Lemma check_file_changes_not_newer fs g mtime :
  getmtime fs = Some mtime -> (mtime <= last_file_mtime g)%Q ->
  check_file_changes fs g = (g, [], Returned).
Proof.
  unfold check_file_changes. intros -> Hle%Qle_bool_iff. rewrite Hle. simpl.
  by destruct (no_devices_file g || negb (path_exists fs)).
Qed.

Lemma check_file_changes_same_content fs g :
  reload_reads fs g (hosts g) (host_names g) ->
  hosts (check_file_changes fs g).1.1 = hosts g
  /\ host_names (check_file_changes fs g).1.1 = host_names g
  /\ results (check_file_changes fs g).1.1 = results g
  /\ (check_file_changes fs g).2 = Returned.
Proof.
  intros (Hdev & Hex & (mtime & lines & Hm & Hlt & Hread & Hparse) & Hne).
  unfold check_file_changes. rewrite Hdev, Hex, Hm. simpl.
  assert (Qle_bool mtime (last_file_mtime g) = false) as ->.
  { apply not_true_is_false. intros Hle%Qle_bool_iff. lra. }
  simpl. unfold read_hosts_from_file. rewrite Hread, Hparse.
  destruct (hosts g) as [|h0 hs0] eqn:Eh; [done|].
  rewrite !bool_decide_eq_false_2 by (intros Hc; by apply Hc). done.
Qed.

Lemma check_file_changes_exits fs g :
  reload_fails fs g ->
  (check_file_changes fs g).2 = Raised (SystemExit 1)
  /\ hosts (check_file_changes fs g).1.1 = hosts g
  /\ host_names (check_file_changes fs g).1.1 = host_names g
  /\ results (check_file_changes fs g).1.1 = results g.
Proof.
  intros (Hdev & Hex & (mtime & Hm & Hlt) & Hread).
  unfold check_file_changes. rewrite Hdev, Hex, Hm. simpl.
  assert (Qle_bool mtime (last_file_mtime g) = false) as ->.
  { apply not_true_is_false. intros Hle%Qle_bool_iff. lra. }
  simpl. unfold read_hosts_from_file.
  destruct Hread as [[e ->]|(lines & -> & Hnil)]; [done|].
  destruct (parse_lines lines) as [hs names]. simpl in Hnil. by subst hs.
Qed.

(** Whatever makes [check_file_changes] change the hosts, the names or
    the table is a newer file whose content differs. *)
Lemma check_file_changes_changes fs g :
  hosts (check_file_changes fs g).1.1 <> hosts g
  \/ host_names (check_file_changes fs g).1.1 <> host_names g
  \/ results (check_file_changes fs g).1.1 <> results g ->
  exists mtime lines,
    getmtime fs = Some mtime /\ (last_file_mtime g < mtime)%Q
    /\ file_read fs = ReadLines lines
    /\ ((parse_lines lines).1 <> hosts g \/ (parse_lines lines).2 <> host_names g).
Proof.
  unfold check_file_changes.
  destruct (no_devices_file g || negb (path_exists fs)); [naive_solver|].
  destruct (getmtime fs) as [mtime|]; [|naive_solver].
  destruct (Qle_bool mtime (last_file_mtime g)) eqn:Ele; simpl; [naive_solver|].
  assert (last_file_mtime g < mtime)%Q as Hlt.
  { apply Qnot_le_lt. intros Hle%Qle_bool_iff. congruence. }
  unfold read_hosts_from_file.
  destruct (file_read fs) as [e|lines]; simpl; [naive_solver|].
  destruct (parse_lines lines) as [hs names] eqn:Ep.
  destruct hs as [|h0 hs]; simpl; [naive_solver|].
  destruct (bool_decide (h0 :: hs ≠ hosts g)) eqn:E1; simpl.
  - apply bool_decide_eq_true in E1. intros _. exists mtime, lines. rewrite ?Ep. simpl. by auto.
  - destruct (bool_decide (names ≠ host_names g)) eqn:E2; simpl; [|naive_solver].
    apply bool_decide_eq_true in E2. intros _. exists mtime, lines. rewrite ?Ep. simpl. by auto.
Qed.
End ReloadFacts.

Section ParseFacts.

Lemma elem_of_fromkeys l x : x ∈ fromkeys l <-> x ∈ l.
Proof.
  unfold fromkeys. induction l as [|y l IH] using rev_ind; [done|].
  rewrite foldl_app. simpl. case_bool_decide; set_solver.
Qed.

Lemma fromkeys_snoc l x :
  fromkeys (l ++ [x]) = if bool_decide (x ∈ l) then fromkeys l else fromkeys l ++ [x].
Proof.
  unfold fromkeys at 1. rewrite foldl_app. simpl. fold (fromkeys l).
  do 2 case_bool_decide; try done; by rewrite elem_of_fromkeys in *.
Qed.

Lemma NoDup_fromkeys l : NoDup (fromkeys l).
Proof.
  induction l as [|y l IH] using rev_ind; [constructor|].
  rewrite fromkeys_snoc. case_bool_decide; [done|].
  apply NoDup_app. split_and!; [done| |apply NoDup_singleton].
  intros z Hz Hin%list_elem_of_singleton. rewrite elem_of_fromkeys in Hz. by subst.
Qed.

Lemma parse_lines_snoc lines line :
  parse_lines (lines ++ [line]) = parse_line (parse_lines lines) line.
Proof. unfold parse_lines. by rewrite foldl_app. Qed.


End ParseFacts.

(** C2.  When the devices file is reloaded and the hosts go from the set
    {A, B} to the set {B, C}, with a table holding a record for A and for
    B and nothing else, the table left by the reload step has no entry for
    A, the entry of B as it was, and no entry for C. *)
Theorem reload_evicts_removed_hosts `{PyFloat} (fs : fs_world) (g : globals)
    (A B C : string) (new_hosts : list string) (new_names : gmap string string) :
  A <> B -> A <> C -> B <> C ->
  list_to_set (hosts g) = ({[A; B]} : gset string) ->
  dom (results g) = ({[A; B]} : gset string) ->
  list_to_set new_hosts = ({[B; C]} : gset string) ->
  reload_reads fs g new_hosts new_names ->
  results (check_file_changes fs g).1.1 !! A = None
  /\ is_Some (results g !! B)
  /\ results (check_file_changes fs g).1.1 !! B = results g !! B
  /\ results (check_file_changes fs g).1.1 !! C = None
  /\ hosts (check_file_changes fs g).1.1 = new_hosts.
Proof.
  intros HAB HAC HBC Hold Hdom Hnew Hreads.
  assert (HA : A ∉ new_hosts).
  { intros Hin. apply (elem_of_list_to_set (C:=gset string)) in Hin.
    rewrite Hnew in Hin. set_solver. }
  assert (HB : B ∈ new_hosts).
  { apply (elem_of_list_to_set (C:=gset string)). rewrite Hnew. set_solver. }
  assert (Hdiff : new_hosts <> hosts g).
  { intros ->. apply HA. apply (elem_of_list_to_set (C:=gset string)).
    rewrite Hold. set_solver. }
  destruct (check_file_changes_adopts fs g new_hosts new_names Hreads (or_introl Hdiff))
    as (Hh & _ & Hres & _).
  assert (HC : results g !! C = None).
  { apply not_elem_of_dom. rewrite Hdom. set_solver. }
  split_and!.
  - rewrite Hres. by rewrite decide_False.
  - apply elem_of_dom. rewrite Hdom. set_solver.
  - rewrite Hres. by rewrite decide_True.
  - rewrite Hres. by destruct (decide _).
  - exact Hh.
Qed.

Lemma reload_evicts_removed_hosts_sample :
  results (check_file_changes Sample.rewritten Sample.watching).1.1 !! Sample.host_a = None
  /\ is_Some (results Sample.watching !! Sample.host_b)
  /\ results (check_file_changes Sample.rewritten Sample.watching).1.1 !! Sample.host_b
     = results Sample.watching !! Sample.host_b
  /\ results (check_file_changes Sample.rewritten Sample.watching).1.1 !! Sample.host_c = None
  /\ hosts (check_file_changes Sample.rewritten Sample.watching).1.1
     = [Sample.host_b; Sample.host_c].
Proof.
  apply (reload_evicts_removed_hosts Sample.rewritten Sample.watching
           Sample.host_a Sample.host_b Sample.host_c [Sample.host_b; Sample.host_c] ∅).
  - discriminate.
  - discriminate.
  - discriminate.
  - apply (bool_decide_unpack _). by vm_compute.
  - apply (bool_decide_unpack _). by vm_compute.
  - apply (bool_decide_unpack _). by vm_compute.
  - split; [reflexivity|]. split; [reflexivity|]. split; [|discriminate].
    exists 2%Q, [Sample.host_b; Sample.host_c].
    split; [reflexivity|]. split; [reflexivity|]. split; reflexivity.
Defined.

(** The reload of the sample ends in the [NameError] of [added_hosts]. *)
Example reload_raises_name_error :
  (check_file_changes Sample.rewritten Sample.watching).2
  = Raised (NameError "added_hosts").
Proof. by vm_compute. Qed.

(** C6, at the input where it fails.  With a devices file that is there
    and newer than the last one read, a file that cannot be read, or that
    is caught with no host in it, makes the reload check end in the
    [SystemExit] of [sys.exit(1)] instead of returning, and the polling
    turn ends with it before any host is probed. *)
Theorem reload_of_unreadable_file_exits :
  (check_file_changes Sample.unreadable Sample.watching).2 = Raised (SystemExit 1)
  /\ (check_file_changes Sample.emptied Sample.watching).2 = Raised (SystemExit 1)
  /\ (poll_cycle Sample.linux Sample.unreadable Sample.second_fails
        [Sample.host_a; Sample.host_b] Sample.watching).2 = Raised (SystemExit 1)
  /\ (poll_cycle Sample.linux Sample.unreadable Sample.second_fails
        [Sample.host_a; Sample.host_b] Sample.watching).1.2 = [].
Proof. by vm_compute. Qed.




(** ** The renderers *)

Section RendererFacts.
Context {F : PyFloat}.
Variable pal : palette.

(** The live renderer. *)



Lemma live_step_header st c : live_header_printed (live_step pal st c).1.1 = true.
Proof.
  unfold live_step, display_results_live.
  destruct (live_header_printed st) eqn:Hst; simpl; [|done].
  destruct (Qlt_le_dec _ _); [done|].
  destruct (nonempty (call_results c)); [|done].
  destruct (update_lines _ _ _ _ _ _) as [[lines out] [|e]]; [|done].
  by destruct (counts (call_results c)) as [e|[[? ?] ?]].
Qed.





End RendererFacts.

(** C9, against the claim.  Two calls of the Detailed renderer with the
    same hosts, names and table print different text when the clock has
    moved on by a second between them. *)
Lemma detailed_output_changes_with_the_clock :
  display_results_detailed no_colour Sample.at_noon
    [Sample.host_a; Sample.host_b] ∅ Sample.one_result
  <> display_results_detailed no_colour Sample.a_second_later
       [Sample.host_a; Sample.host_b] ∅ Sample.one_result.
Proof. intros Heq. vm_compute in Heq. discriminate Heq. Qed.

(** C9, as amended.  Two calls of the Detailed renderer with the same
    hosts, names and table end the same way and print the same text but
    for the time of day at the head of the summary line: everything after
    that line is identical, the whole output is identical when the clock
    reads the same second at both calls, and with an empty table nothing
    is printed either time. *)
Theorem detailed_output_but_for_the_clock `{PyFloat} (pal : palette)
    (hosts : list string) (names : gmap string string)
    (results : gmap string (gmap string pyval)) (now1 now2 : string) :
  (display_results_detailed pal now1 hosts names results).2
  = (display_results_detailed pal now2 hosts names results).2
  /\ tail (display_results_detailed pal now1 hosts names results).1
     = tail (display_results_detailed pal now2 hosts names results).1
  /\ (strftime_hms now1 = strftime_hms now2 ->
      display_results_detailed pal now1 hosts names results
      = display_results_detailed pal now2 hosts names results)
  /\ (nonempty results = false ->
      display_results_detailed pal now1 hosts names results = ([], Returned)).
Proof.
  unfold display_results_detailed.
  destruct (nonempty results); [|done].
  destruct (counts results) as [e|c]; [done|].
  destruct (print_rows _ _) as [rows [|e]]; simpl;
    (split_and!; [done|done|by intros ->|done]).
Qed.

Lemma detailed_output_but_for_the_clock_sample :
  strftime_hms Sample.at_noon = strftime_hms Sample.just_after_noon
  /\ display_results_detailed no_colour Sample.at_noon
       [Sample.host_a; Sample.host_b] ∅ Sample.one_result
     = display_results_detailed no_colour Sample.just_after_noon
         [Sample.host_a; Sample.host_b] ∅ Sample.one_result.
Proof.
  split; [reflexivity|].
  destruct (detailed_output_but_for_the_clock no_colour [Sample.host_a; Sample.host_b]
              ∅ Sample.one_result Sample.at_noon Sample.just_after_noon)
    as (_ & _ & Hsame & _).
  apply Hsame. reflexivity.
Defined.

(** The scenario of the description: a host that answers in 12.3 ms with
    no loss is shown as UP with "12.3 ms" and "0.0%". *)
Example detailed_scenario :
  display_results_detailed no_colour Sample.at_noon [Sample.host_a] ∅ Sample.one_result
  = ([println "[12:00:00] UP:1 DOWN:0 ERROR:0";
      println "  10.0.0.1        10.0.0.1        UP     12.3 ms  0.0%";
      println ""], Returned).
Proof. by vm_compute. Qed.



(** * Further properties *)

(** ** The hosts file, the start-up list and the reload *)

Section StripFacts.

Lemma rstrip_idem s : Py.rstrip (Py.rstrip s) = Py.rstrip s.
Proof.
  induction s as [|c s IH]; simpl; [done|].
  destruct (Py.isspace c && Py.is_empty (Py.rstrip s)) eqn:E; simpl; [done|].
  by rewrite IH, E.
Qed.

Lemma lstrip_head s :
  Py.lstrip s = EmptyString
  \/ exists c t, Py.lstrip s = String c t /\ Py.isspace c = false.
Proof.
  induction s as [|c s IH]; simpl; [by left|].
  destruct (Py.isspace c) eqn:E; [done|]. right. by exists c, s.
Qed.

Lemma strip_idem s : Py.strip (Py.strip s) = Py.strip s.
Proof.
  unfold Py.strip. destruct (lstrip_head s) as [->|(c & t & -> & Hc)]; [done|].
  simpl. rewrite Hc. simpl. rewrite Hc. simpl. rewrite Hc. simpl.
  by rewrite rstrip_idem.
Qed.

Lemma parse_line_hosts acc line :
  (parse_line acc line).1 = acc.1
  \/ exists h, (parse_line acc line).1 = acc.1 ++ [h] /\ Py.strip h = h
       /\ ((parse_line acc line).2 = acc.2
           \/ exists n, (parse_line acc line).2 = <[h := n]> acc.2 /\ Py.strip n = n).
Proof.
  destruct acc as [hs names]. unfold parse_line.
  destruct (Py.is_empty (Py.strip line) || Py.startswith "#" (Py.strip line)); [by left|].
  right. destruct (Py.split1 ":" (Py.strip line)) as [[u v]|]; simpl.
  - exists (Py.strip v). split_and!; [done|apply strip_idem|].
    right. exists (Py.strip u). split; [done|apply strip_idem].
  - exists (Py.strip line). split_and!; [done|apply strip_idem|by left].
Qed.

Lemma parse_lines_stripped lines :
  Forall (fun h => Py.strip h = h) (parse_lines lines).1
  /\ map_Forall (fun h n => Py.strip h = h /\ Py.strip n = n /\ h ∈ (parse_lines lines).1)
       (parse_lines lines).2.
Proof.
  induction lines as [|line lines IH] using rev_ind.
  - split; [constructor|apply map_Forall_empty].
  - rewrite parse_lines_snoc. destruct IH as [IH1 IH2].
    destruct (parse_line_hosts (parse_lines lines) line)
      as [Hh|(h & Hh & Hs & Hn)].
    + assert ((parse_line (parse_lines lines) line).2 = (parse_lines lines).2) as Hn.
      { destruct (parse_lines lines) as [hs names]. unfold parse_line in *.
        destruct (Py.is_empty _ || _); [done|].
        destruct (Py.split1 _ _) as [[u v]|]; simpl in *;
          apply (f_equal length) in Hh; rewrite length_app in Hh; simpl in Hh; lia. }
      by rewrite Hh, Hn.
    + rewrite Hh. split; [apply Forall_app; split; [done|by constructor]|].
      destruct Hn as [->|(n & -> & Hsn)].
      * eapply map_Forall_impl; [exact IH2|]. intros k v (? & ? & ?).
        split_and!; [done|done|set_solver].
      * apply map_Forall_insert_2; [split_and!; [done|done|set_solver]|].
        eapply map_Forall_impl; [exact IH2|]. intros k v (? & ? & ?).
        split_and!; [done|done|set_solver].
Qed.

Lemma parse_lines_length lines :
  length (parse_lines lines).1 = length (List.filter (fun l => negb (ignored_line l)) lines).
Proof.
  induction lines as [|line lines IH] using rev_ind; [done|].
  rewrite parse_lines_snoc, List.filter_app, length_app, <- IH.
  change (List.filter (fun l => negb (ignored_line l)) [line])
    with (if negb (ignored_line line) then [line] else []).
  destruct (parse_lines lines) as [hs names]. unfold parse_line, ignored_line.
  destruct (Py.is_empty (Py.strip line) || Py.startswith "#" (Py.strip line)).
  - cbn [negb length fst]. lia.
  - destruct (Py.split1 _ _) as [[u v]|]; cbn [negb length fst];
      rewrite length_app; cbn [length]; lia.
Qed.
End StripFacts.

(** X1.  Every host [read_hosts_from_file] returns is free of white
    space at both ends, and so is every display name; a host that has a
    display name is in the list of hosts. *)
Theorem hosts_file_entries_are_stripped (filename : string) (lines hosts : list string)
    (names : gmap string string) :
  (read_hosts_from_file filename (ReadLines lines)).1 = inr (hosts, names) ->
  Forall (fun h => Py.strip h = h) hosts
  /\ (forall h n, names !! h = Some n -> Py.strip n = n /\ h ∈ hosts).
Proof.
  unfold read_hosts_from_file.
  pose proof (parse_lines_stripped lines) as [H1 H2].
  destruct (parse_lines lines) as [hs ns]. simpl in *.
  destruct hs as [|h0 hs]; [done|]. simpl. intros [= <- <-].
  split; [done|]. intros h n Hn. by destruct (H2 h n Hn) as (_ & ? & ?).
Qed.

(** X2.  [read_hosts_from_file] leaves with [sys.exit(1)] and the
    message "No valid hosts found" exactly when every line of the file is
    blank or a comment; otherwise it returns, having printed nothing, one
    host for each of the other lines, repeated hosts included. *)
Theorem hosts_file_exit_or_hosts (filename : string) (lines : list string) :
  read_hosts_from_file filename (ReadLines lines)
  = (if forallb ignored_line lines
     then (inl (SystemExit 1), [println ("No valid hosts found in " +:+ filename)])
     else (inr (parse_lines lines), []))
  /\ length (parse_lines lines).1
     = length (List.filter (fun l => negb (ignored_line l)) lines).
Proof.
  pose proof (parse_lines_length lines) as Hlen. split; [|done].
  unfold read_hosts_from_file.
  assert (Hnil : forallb ignored_line lines = true
                 <-> List.filter (fun l => negb (ignored_line l)) lines = []).
  { clear. induction lines as [|l ls IH]; simpl; [done|].
    destruct (ignored_line l); simpl; [exact IH|]. split; discriminate. }
  destruct (parse_lines lines) as [hs ns]. simpl in Hlen.
  destruct (forallb ignored_line lines).
  - rewrite (proj1 Hnil eq_refl) in Hlen. by destruct hs.
  - destruct hs as [|h0 hs]; [|done].
    destruct (List.filter _ lines); [|discriminate Hlen].
    discriminate (proj2 Hnil eq_refl).
Qed.

Section DedupFacts.
Lemma fromkeys_NoDup_id l : NoDup l -> fromkeys l = l.
Proof.
  induction l as [|x l IH] using rev_ind; [done|].
  intros [Hl (Hx & _)]%NoDup_app. rewrite fromkeys_snoc, IH by done.
  rewrite bool_decide_eq_false_2; [done|].
  intros Hin. apply (Hx x Hin). apply list_elem_of_here.
Qed.
End DedupFacts.

(** X3.  The removal of repeated hosts in [main] leaves a list without
    repetitions as it is, changes nothing when done twice, and never
    makes the list longer. *)
Theorem fromkeys_keeps_a_clean_list (l : list string) :
  (NoDup l -> fromkeys l = l)
  /\ fromkeys (fromkeys l) = fromkeys l
  /\ length (fromkeys l) <= length l.
Proof.
  split_and!.
  - apply fromkeys_NoDup_id.
  - apply fromkeys_NoDup_id, NoDup_fromkeys.
  - induction l as [|x l IH] using rev_ind; [done|].
    rewrite fromkeys_snoc, length_app. simpl.
    case_bool_decide; [lia|]. rewrite length_app. simpl. lia.
Qed.

Section ReloadMore.
Context {F : PyFloat}.

Lemma check_file_changes_cases fs g :
  check_file_changes fs g = (g, [], Returned)
  \/ exists mtime,
       no_devices_file g = false /\ path_exists fs = true
       /\ getmtime fs = Some mtime /\ (last_file_mtime g < mtime)%Q
       /\ devices_file (check_file_changes fs g).1.1 = devices_file g
       /\ last_file_mtime (check_file_changes fs g).1.1 = mtime
       /\ (forall h r, results (check_file_changes fs g).1.1 !! h = Some r ->
                       results g !! h = Some r).
Proof.
  unfold check_file_changes.
  destruct (no_devices_file g) eqn:Ed; [by left|].
  destruct (path_exists fs) eqn:Ex; [|by left]. simpl.
  destruct (getmtime fs) as [mtime|]; [|by left].
  destruct (Qle_bool mtime (last_file_mtime g)) eqn:Ele; simpl; [by left|].
  right. exists mtime.
  assert (last_file_mtime g < mtime)%Q as Hlt.
  { apply Qnot_le_lt. intros Hle%Qle_bool_iff. congruence. }
  split_and!; try done.
  - destruct (read_hosts_from_file _ _) as [[e|[nh nn]] out]; [done|].
    by destruct (bool_decide _ || bool_decide _).
  - destruct (read_hosts_from_file _ _) as [[e|[nh nn]] out]; [done|].
    by destruct (bool_decide _ || bool_decide _).
  - intros h r. destruct (read_hosts_from_file _ _) as [[e|[nh nn]] out]; [done|].
    destruct (bool_decide _ || bool_decide _); [|done]. simpl.
    rewrite lookup_delete_all. by destruct (decide _).
Qed.
End ReloadMore.

(** X4.  Whatever [check_file_changes] meets, an entry the table holds
    after it was there before it with the same record (the reload only
    removes), the path of the devices file is left alone, and the
    recorded modification time never goes back. *)
Theorem reload_only_removes `{PyFloat} (fs : fs_world) (g : globals) :
  (forall h r, results (check_file_changes fs g).1.1 !! h = Some r ->
               results g !! h = Some r)
  /\ devices_file (check_file_changes fs g).1.1 = devices_file g
  /\ (last_file_mtime g <= last_file_mtime (check_file_changes fs g).1.1)%Q.
Proof.
  destruct (check_file_changes_cases fs g) as [->|(m & _ & _ & _ & Hlt & Hd & Hm & Hr)].
  - simpl. split_and!; [done|done|apply Qle_refl].
  - split_and!; [done|done|]. rewrite Hm. by apply Qlt_le_weak.
Qed.

(** X5.  A change of the devices file is taken up once: a second
    [check_file_changes] that meets the same file system does nothing and
    returns, also after a reload that was cut short by an exception. *)
Theorem reload_is_consumed_once `{PyFloat} (fs : fs_world) (g : globals) :
  check_file_changes fs (check_file_changes fs g).1.1
  = ((check_file_changes fs g).1.1, [], Returned).
Proof.
  destruct (check_file_changes_cases fs g) as [Heq|(m & Hd & Hx & Hm & Hlt & Hdev & Hlast & _)].
  - rewrite Heq. simpl. exact Heq.
  - apply check_file_changes_not_newer with (mtime := m); [done|].
    rewrite Hlast. apply Qle_refl.
Qed.

(** X6.  After a reload that takes new content, the hosts and the names
    are those of the file and the table holds an entry exactly for the
    hosts that had one and are still listed. *)
Theorem reload_leaves_current_hosts_only `{PyFloat} (fs : fs_world) (g : globals)
    (new_hosts : list string) (new_names : gmap string string) :
  reload_reads fs g new_hosts new_names ->
  new_hosts <> hosts g \/ new_names <> host_names g ->
  hosts (check_file_changes fs g).1.1 = new_hosts
  /\ host_names (check_file_changes fs g).1.1 = new_names
  /\ (forall h, h ∈ dom (results (check_file_changes fs g).1.1)
                <-> h ∈ dom (results g) /\ h ∈ new_hosts).
Proof.
  intros Hr Hd.
  destruct (check_file_changes_adopts fs g new_hosts new_names Hr Hd) as (Hh & Hn & Hres & _).
  split_and!; [done|done|]. intros h. rewrite !elem_of_dom, Hres.
  destruct (decide (h ∈ new_hosts)); [tauto|].
  split; [by intros [? ?]|tauto].
Qed.

(** ** The prober *)

Section ProberMore.
Context {F : PyFloat}.
Implicit Types r : gmap string pyval.

(** What the success branch leaves of a dictionary it was given. *)
Lemma parse_success_frame stdout r k :
  k <> "status" -> k <> "latency" -> k <> "packet_loss" ->
  match parse_success stdout r with
  | inl (_, r') => r' !! k = r !! k
  | inr r' => r' !! k = r !! k
  end.
Proof.
  intros H1 H2 H3. unfold parse_success.
  destruct (Py.contains "time=" stdout || Py.contains "time<" stdout);
    [destruct (last (Re.findall_time stdout)) as [m|];
       [destruct (py_float m) as [e|x]; [by rewrite lookup_insert_ne|]|]|].
  all: destruct (Re.search_loss stdout) as [g|];
    [destruct (py_float g) as [e|y]; [|destruct (feqb y f100)]|].
  all: by rewrite ?lookup_insert_ne.
Qed.

Lemma on_exception_frame e r k :
  k <> "status" -> k <> "message" -> on_exception e r !! k = r !! k.
Proof. intros H1 H2. unfold on_exception. by rewrite !lookup_insert_ne. Qed.

Lemma parse_failure_frame stderr r k :
  k <> "status" -> k <> "message" -> parse_failure stderr r !! k = r !! k.
Proof.
  intros H1 H2. unfold parse_failure.
  destruct (Py.is_empty stderr); by rewrite !lookup_insert_ne.
Qed.

Lemma ping_host_frame cfg w host k :
  k <> "status" -> k <> "message" -> k <> "latency" -> k <> "packet_loss" ->
  (ping_host cfg w host).1 !! k = initial_result host (now w) !! k.
Proof.
  intros H1 H2 H3 H4. unfold ping_host. destruct (gethostbyname w); simpl.
  - destruct (ping_command cfg host) as [e|cmd]; simpl; [by apply on_exception_frame|].
    destruct (communicate w) as [e|rc out err]; simpl; [by apply on_exception_frame|].
    destruct (rc =? 0)%Z; simpl; [|by apply parse_failure_frame].
    pose proof (parse_success_frame out (initial_result host (now w)) k H1 H3 H4) as Hp.
    destruct (parse_success out _) as [[e r']|r']; simpl; [|done].
    by rewrite on_exception_frame.
  - by rewrite !lookup_insert_ne.
  - by apply on_exception_frame.
Qed.

Lemma parse_success_message stdout r r' :
  parse_success stdout r = inr r' -> r' !! "message" = r !! "message".
Proof.
  intros Hp. pose proof (parse_success_frame stdout r "message") as Hf.
  rewrite Hp in Hf. by apply Hf.
Qed.

(** Where a latency comes from. *)
Lemma parse_success_latency stdout r :
  r !! "latency" = Some VNone ->
  match parse_success stdout r with
  | inl (_, r') | inr r' =>
      r' !! "latency" = Some VNone
      \/ exists m x, last (Re.findall_time stdout) = Some m
                     /\ float_of_str m = Some x
                     /\ (Py.contains "time=" stdout || Py.contains "time<" stdout) = true
                     /\ r' !! "latency" = Some (VFloat x)
  end.
Proof.
  intros Hr. unfold parse_success, py_float.
  destruct (Py.contains "time=" stdout || Py.contains "time<" stdout) eqn:Ec;
    [destruct (last (Re.findall_time stdout)) as [m|] eqn:El;
       [destruct (float_of_str m) as [x|] eqn:Ef|]|].
  2: { left. by rewrite lookup_insert_ne. }
  1: destruct (Re.search_loss stdout) as [g|];
       [destruct (float_of_str g) as [y|]; [destruct (feqb y f100)|]|];
       right; exists m, x; split_and!; try done; by simplify_map_eq.
  all: destruct (Re.search_loss stdout) as [g|];
    [destruct (float_of_str g) as [y|]; [destruct (feqb y f100)|]|];
    left; by simplify_map_eq.
Qed.

Lemma ping_host_latency cfg w host :
  (ping_host cfg w host).1 !! "latency" = Some VNone
  \/ exists out err m x,
       communicate w = Exited 0 out err
       /\ last (Re.findall_time out) = Some m /\ float_of_str m = Some x
       /\ (Py.contains "time=" out || Py.contains "time<" out) = true
       /\ (ping_host cfg w host).1 !! "latency" = Some (VFloat x).
Proof.
  assert (H0 : initial_result host (now w) !! "latency" = Some VNone)
    by (unfold initial_result; by simplify_map_eq).
  unfold ping_host. destruct (gethostbyname w); simpl.
  - destruct (ping_command cfg host) as [e|cmd]; simpl.
    { left. by rewrite on_exception_frame. }
    destruct (communicate w) as [e|rc out err]; simpl.
    { left. by rewrite on_exception_frame. }
    destruct (Z.eqb_spec rc 0) as [->|Hrc]; simpl.
    + pose proof (parse_success_latency out _ H0) as Hp.
      destruct (parse_success out _) as [[e r']|r']; simpl.
      * rewrite on_exception_frame by done.
        destruct Hp as [Hp|(m & x & ? & ? & ? & ?)]; [by left|].
        right. by exists out, err, m, x.
      * destruct Hp as [Hp|(m & x & ? & ? & ? & ?)]; [by left|].
        right. by exists out, err, m, x.
    + left. by rewrite parse_failure_frame.
  - left. by simplify_map_eq.
  - left. by rewrite on_exception_frame.
Qed.

Lemma ping_host_up cfg w host :
  (ping_host cfg w host).1 !! "status" = Some (VStr "up") ->
  gethostbyname w = Resolved
  /\ (exists out err, communicate w = Exited 0 out err)
  /\ (ping_host cfg w host).1 !! "message" = Some (VStr "").
Proof.
  assert (H0 : initial_result host (now w) !! "message" = Some (VStr ""))
    by (unfold initial_result; by simplify_map_eq).
  unfold ping_host. destruct (gethostbyname w); simpl.
  - destruct (ping_command cfg host) as [e|cmd]; simpl.
    { by rewrite status_on_exception. }
    destruct (communicate w) as [e|rc out err]; simpl.
    { by rewrite status_on_exception. }
    destruct (Z.eqb_spec rc 0) as [->|Hrc]; simpl.
    + destruct (parse_success out _) as [[e r']|r'] eqn:Ep; simpl.
      { by rewrite status_on_exception. }
      intros _. split_and!; [done|by exists out, err|].
      by rewrite (parse_success_message _ _ _ Ep).
    + by rewrite status_parse_failure.
  - by simplify_map_eq.
  - by rewrite status_on_exception.
Qed.

Lemma ping_command_shape cfg host cmd :
  ping_command cfg host = inr cmd -> length cmd = 6%nat /\ last cmd = Some host.
Proof.
  unfold ping_command.
  destruct (sys_platform cfg); destruct (str_int _) as [e|t]; try done;
    by intros [= <-].
Qed.

Lemma ping_host_trace cfg w host :
  (ping_host cfg w host).2
  = match gethostbyname w, ping_command cfg host with
    | Resolved, inr cmd => [EvResolve host; EvPopen cmd]
    | _, _ => [EvResolve host]
    end.
Proof.
  unfold ping_host. destruct (gethostbyname w); simpl; [|done..].
  destruct (ping_command cfg host) as [e|cmd]; simpl; [done|].
  destruct (communicate w) as [e|rc out err]; simpl; [done|].
  destruct (rc =? 0)%Z; [|done].
  by destruct (parse_success _ _) as [[? ?]|?].
Qed.
End ProberMore.

(** X7.  The record [ping_host] returns always carries the host it was
    asked about and the time at which the probe began. *)
Theorem ping_host_names_its_host `{PyFloat} (cfg : probe_config) (w : probe_world)
    (host : string) :
  (ping_host cfg w host).1 !! "host" = Some (VStr host)
  /\ (ping_host cfg w host).1 !! "timestamp" = Some (VTime (now w)).
Proof.
  split; rewrite ping_host_frame by done; unfold initial_result; by simplify_map_eq.
Qed.

(** X8.  A record with status 'up' comes from a name that resolved and
    a ping that exited with code 0, and its message is empty. *)
Theorem up_means_ping_succeeded `{PyFloat} (cfg : probe_config) (w : probe_world)
    (host : string) :
  (ping_host cfg w host).1 !! "status" = Some (VStr "up") ->
  gethostbyname w = Resolved
  /\ (exists out err, communicate w = Exited 0 out err)
  /\ (ping_host cfg w host).1 !! "message" = Some (VStr "").
Proof. apply ping_host_up. Qed.

(** X9.  The latency of a record is [None], or the number read from
    the last [time=] or [time<] field of the output of a ping that exited
    with code 0. *)
Theorem latency_comes_from_the_last_time_field `{PyFloat} (cfg : probe_config)
    (w : probe_world) (host : string) :
  (ping_host cfg w host).1 !! "latency" = Some VNone
  \/ exists out err m x,
       communicate w = Exited 0 out err
       /\ last (Re.findall_time out) = Some m /\ float_of_str m = Some x
       /\ (Py.contains "time=" out || Py.contains "time<" out) = true
       /\ (ping_host cfg w host).1 !! "latency" = Some (VFloat x).
Proof. apply ping_host_latency. Qed.

(** X10.  When the name resolves and ping exits with a code other than
    0, the record is the initial one with status 'down' and, as message,
    the stripped error output of ping or 'Host is unreachable' when there
    is none; no latency, packet loss 100.0. *)
Theorem failed_ping_record `{PyFloat} (cfg : probe_config) (w : probe_world)
    (host : string) (cmd : list string) (rc : Z) (out err : string) :
  gethostbyname w = Resolved ->
  ping_command cfg host = inr cmd ->
  communicate w = Exited rc out err ->
  rc <> 0%Z ->
  (ping_host cfg w host).1
  = <["message" := VStr (if Py.is_empty err then "Host is unreachable" else Py.strip err)]>
      (<["status" := VStr "down"]> (initial_result host (now w)))
  /\ (ping_host cfg w host).1 !! "latency" = Some VNone
  /\ (ping_host cfg w host).1 !! "packet_loss" = Some (VFloat f100).
Proof.
  intros Hg Hc Hp Hrc. unfold ping_host. rewrite Hg, Hc, Hp.
  destruct (Z.eqb_spec rc 0) as [|_]; [done|]. simpl. unfold parse_failure, initial_result.
  destruct (Py.is_empty err); split_and!; try done; by simplify_map_eq.
Qed.

(** X11.  What [ping_host] asks of the system does not depend on what
    the subprocess answers: the resolution, then a single ping command if
    the name resolved and the command could be built.  That command has
    six arguments and ends with the host. *)
Theorem one_subprocess_after_resolution `{PyFloat} (cfg : probe_config)
    (w : probe_world) (host : string) :
  (ping_host cfg w host).2
  = match gethostbyname w, ping_command cfg host with
    | Resolved, inr cmd => [EvResolve host; EvPopen cmd]
    | _, _ => [EvResolve host]
    end
  /\ (forall cmd, EvPopen cmd ∈ (ping_host cfg w host).2 ->
                  gethostbyname w = Resolved /\ ping_command cfg host = inr cmd
                  /\ length cmd = 6%nat /\ last cmd = Some host).
Proof.
  split; [apply ping_host_trace|]. rewrite ping_host_trace. intros cmd.
  destruct (gethostbyname w); [|set_solver..].
  destruct (ping_command cfg host) as [e|c] eqn:Ec; [set_solver|].
  intros Hin. assert (cmd = c) as -> by set_solver.
  destruct (ping_command_shape _ _ _ Ec). done.
Qed.

(** ** The polling loop *)

Section LoopMore.
Context {F : PyFloat}.
Implicit Types res : gmap string (gmap string pyval).

Lemma probe_loop_stops cfg env k : forall hs i res,
  (k < length hs)%nat -> running_seen (env (i + k)%nat) = false ->
  probe_loop cfg env i hs res = probe_loop cfg env i (take k hs) res.
Proof.
  induction k as [|k IH]; intros [|h hs] i res Hk Hrun; simpl in Hk; try lia.
  - rewrite Nat.add_0_r in Hrun. simpl. by rewrite Hrun.
  - simpl. destruct (running_seen (env i)); simpl; [|done].
    destruct (ping_host cfg (world (env i)) h) as [r ev].
    rewrite (IH hs (S i) (<[h := r]> res)); [done|lia|].
    by rewrite Nat.add_succ_l, <- Nat.add_succ_r.
Qed.

Lemma probe_loop_keys cfg env hs : forall i res h,
  (is_Some (res !! h) -> is_Some ((probe_loop cfg env i hs res).1 !! h))
  /\ (is_Some ((probe_loop cfg env i hs res).1 !! h) -> is_Some (res !! h) \/ h ∈ hs).
Proof.
  induction hs as [|h0 hs IH]; intros i res h; simpl; [by auto|].
  destruct (running_seen (env i)); simpl; [|by auto].
  destruct (ping_host cfg (world (env i)) h0) as [r ev].
  specialize (IH (S i) (<[h0 := r]> res) h).
  destruct (probe_loop cfg env (S i) hs (<[h0 := r]> res)) as [res' evs]. simpl in *.
  destruct IH as [IH1 IH2]. split.
  - intros Hs. apply IH1. destruct (decide (h0 = h)) as [->|Hne].
    + rewrite lookup_insert_eq. by eexists.
    + by rewrite lookup_insert_ne.
  - intros Hs. destruct (IH2 Hs) as [Hi|Hi]; [|right; set_solver].
    destruct (decide (h0 = h)) as [->|Hne]; [right; set_solver|].
    left. by rewrite lookup_insert_ne in Hi.
Qed.

(** An invariant of the entries is kept by the loop when every record
    [ping_host] returns for a host satisfies it. *)
Lemma probe_loop_invariant (P : string -> gmap string pyval -> Prop) cfg env hs :
  (forall w h, P h (ping_host cfg w h).1) ->
  forall i res, map_Forall P res -> map_Forall P (probe_loop cfg env i hs res).1.
Proof.
  intros HP. induction hs as [|h0 hs IH]; intros i res Hres; simpl; [done|].
  destruct (running_seen (env i)); simpl; [|done].
  pose proof (HP (world (env i)) h0) as Hr.
  destruct (ping_host cfg (world (env i)) h0) as [r ev].
  specialize (IH (S i) (<[h0 := r]> res)).
  destruct (probe_loop cfg env (S i) hs (<[h0 := r]> res)) as [res' evs]. simpl in *.
  apply IH. by apply map_Forall_insert_2.
Qed.

Lemma check_file_changes_invariant (P : string -> gmap string pyval -> Prop) fs g :
  map_Forall P (results g) -> map_Forall P (results (check_file_changes fs g).1.1).
Proof.
  intros Hg h r Hr. apply Hg.
  destruct (check_file_changes_cases fs g) as [Heq|(m & _ & _ & _ & _ & _ & _ & Hres)].
  - by rewrite Heq in Hr.
  - by apply Hres.
Qed.

Lemma poll_cycle_invariant (P : string -> gmap string pyval -> Prop) cfg fs env hl g :
  (forall w h, P h (ping_host cfg w h).1) ->
  map_Forall P (results g) -> map_Forall P (results (poll_cycle cfg fs env hl g).1.1.1).
Proof.
  intros HP Hg. pose proof (check_file_changes_invariant P fs g Hg) as Hc.
  unfold poll_cycle. destruct (check_file_changes fs g) as [[g' out] [|e]]; simpl in *; [|done].
  pose proof (probe_loop_invariant P cfg env
                (match hosts g' with [] => hl | _ :: _ => hosts g' end) HP 0%nat _ Hc) as Hl.
  by destruct (probe_loop _ _ _ _ _).
Qed.

Lemma ping_host_renderable cfg w host : renderable (ping_host cfg w host).1.
Proof.
  split_and!.
  - destruct (status_ping_host cfg w host) as (s & Hs & _). by exists s.
  - destruct (ping_host_latency cfg w host) as [?|(? & ? & ? & x & ? & ? & ? & ? & ?)];
      [by left|right; by exists x].
  - apply elem_of_dom. rewrite dom_ping_host. apply (bool_decide_unpack _). by vm_compute.
Qed.

Lemma probe_loop_resolves cfg env hs : forall i res,
  (forall j, (j < length hs)%nat -> running_seen (env (i + j)%nat) = true) ->
  List.filter is_resolve (probe_loop cfg env i hs res).2 = map EvResolve hs
  /\ (length (List.filter is_popen (probe_loop cfg env i hs res).2) <= length hs)%nat.
Proof.
  induction hs as [|h0 hs IH]; intros i res Hrun; simpl; [done|].
  pose proof (Hrun 0%nat ltac:(simpl; lia)) as H0. rewrite Nat.add_0_r in H0.
  rewrite H0. simpl.
  pose proof (ping_host_trace cfg (world (env i)) h0) as Ht.
  destruct (ping_host cfg (world (env i)) h0) as [r ev]. simpl in Ht.
  specialize (IH (S i) (<[h0 := r]> res)
                ltac:(intros j Hj; rewrite Nat.add_succ_l, <- Nat.add_succ_r; apply Hrun;
                      simpl; lia)).
  destruct (probe_loop cfg env (S i) hs (<[h0 := r]> res)) as [res' evs]. simpl in *.
  destruct IH as [IH1 IH2]. rewrite !List.filter_app, length_app, IH1, Ht.
  destruct (gethostbyname (world (env i))); [destruct (ping_command cfg h0)|..];
    simpl; split; try done; lia.
Qed.
Lemma probe_loop_trace_length cfg env hs : forall i res,
  (length (probe_loop cfg env i hs res).2 <= 2 * length hs)%nat.
Proof.
  induction hs as [|h hs IH]; intros i res; simpl; [lia|].
  destruct (running_seen (env i)); simpl; [|lia].
  pose proof (ping_host_trace cfg (world (env i)) h) as Ht.
  destruct (ping_host cfg (world (env i)) h) as [r ev]. simpl in Ht.
  specialize (IH (S i) (<[h := r]> res)).
  destruct (probe_loop cfg env (S i) hs (<[h := r]> res)) as [res' evs]. simpl in *.
  rewrite length_app, Ht.
  destruct (gethostbyname (world (env i))); [destruct (ping_command cfg h)|..]; simpl; lia.
Qed.
End LoopMore.

(** X12.  When a turn of the loop finds [running] cleared at the host
    of index [k], nothing from that host on is probed: the turn is the
    one over the first [k] hosts, the entries of the other hosts are left
    as they were, and at most [2k] requests were made. *)
Theorem cleared_flag_stops_the_turn `{PyFloat} (cfg : probe_config) (env : nat -> turn)
    (hs : list string) (res : gmap string (gmap string pyval)) (k : nat) :
  (k < length hs)%nat ->
  running_seen (env k) = false ->
  probe_loop cfg env 0 hs res = probe_loop cfg env 0 (take k hs) res
  /\ (forall h, h ∉ take k hs -> (probe_loop cfg env 0 hs res).1 !! h = res !! h)
  /\ (length (probe_loop cfg env 0 hs res).2 <= 2 * k)%nat.
Proof.
  intros Hk Hrun.
  assert (Heq : probe_loop cfg env 0 hs res = probe_loop cfg env 0 (take k hs) res)
    by (by apply probe_loop_stops).
  split_and!; [done|intros h Hh; rewrite Heq; by apply probe_loop_other|].
  rewrite Heq. pose proof (probe_loop_trace_length cfg env (take k hs) 0%nat res) as Hl.
  rewrite length_take in Hl. lia.
Qed.

(** X13.  A turn of the loop never removes an entry of the table, and
    the only entries it adds are for hosts of its list. *)
Theorem turn_keeps_and_adds_current_hosts `{PyFloat} (cfg : probe_config)
    (env : nat -> turn) (hs : list string) (res : gmap string (gmap string pyval))
    (h : string) :
  (is_Some (res !! h) -> is_Some ((probe_loop cfg env 0 hs res).1 !! h))
  /\ (is_Some ((probe_loop cfg env 0 hs res).1 !! h) -> is_Some (res !! h) \/ h ∈ hs).
Proof. apply probe_loop_keys. Qed.

(** X14.  If every record of the table is filed under its own host and
    can be printed by the table renderers, the same holds after a whole
    polling turn, reload included, however the turn ends. *)
Theorem table_stays_well_formed `{PyFloat} (cfg : probe_config) (fs : fs_world)
    (env : nat -> turn) (host_list : list string) (g : globals) :
  keyed_by_host (results g) ->
  map_Forall (fun _ r => renderable r) (results g) ->
  keyed_by_host (results (poll_cycle cfg fs env host_list g).1.1.1)
  /\ map_Forall (fun _ r => renderable r) (results (poll_cycle cfg fs env host_list g).1.1.1).
Proof.
  intros Hk Hr. split.
  - apply (poll_cycle_invariant (fun h r => r !! "host" = Some (VStr h))); [|exact Hk].
    intros w h. rewrite ping_host_frame by done. unfold initial_result. by simplify_map_eq.
  - apply (poll_cycle_invariant (fun _ r => renderable r)); [|exact Hr].
    intros w h. apply ping_host_renderable.
Qed.

(** X15.  In a turn during which [running] stays set, the names are
    resolved once each, in the order of the list, and at most one ping
    is launched per host. *)
Theorem one_resolution_per_host_in_order `{PyFloat} (cfg : probe_config)
    (env : nat -> turn) (hs : list string) (res : gmap string (gmap string pyval)) :
  (forall j, (j < length hs)%nat -> running_seen (env j) = true) ->
  List.filter is_resolve (probe_loop cfg env 0 hs res).2 = map EvResolve hs
  /\ (length (List.filter is_popen (probe_loop cfg env 0 hs res).2) <= length hs)%nat.
Proof. intros Hrun. by apply probe_loop_resolves. Qed.

(** ** The renderers, again *)

Section CountFacts.
Context {F : PyFloat}.
Implicit Types (r : gmap string pyval) (res : gmap string (gmap string pyval)).

(** The count of [count_status] over the list of the records. *)
Notation count s l :=
  (foldr (fun r acc => bind_exn acc (fun n => bind_exn (getitem r "status")
            (fun v => inr (if status_is s v then S n else n)))) (inr 0%nat) l).

Lemma count_missing s (l : list (gmap string pyval)) :
  Exists (fun r => r !! "status" = None) l -> count s l = inl (KeyError "status").
Proof.
  induction l as [|r l IH]; intros Hex; [by apply Exists_nil in Hex|].
  simpl. destruct (decide (Exists (fun r => r !! "status" = None) l)) as [Hl|Hl].
  - by rewrite IH.
  - apply Exists_cons in Hex as [Hr|Hex]; [|done].
    destruct (count s l) as [e|n] eqn:E; simpl.
    + clear -E Hl. exfalso. revert e E. induction l as [|r' l IH]; [done|].
      simpl. intros e. apply not_Exists_Forall in Hl; [|intros x; apply _].
      apply Forall_cons_1 in Hl as [Hr' Hl]. simpl in Hr'.
      destruct (count s l) as [e'|n] eqn:E; simpl.
      * intros _. apply (IH ltac:(by apply Forall_Exists_neg) e' eq_refl).
      * unfold getitem. by destruct (r' !! "status").
    + unfold getitem. by rewrite Hr.
Qed.

Lemma count_present (l : list (gmap string pyval)) :
  Forall (fun r => is_Some (r !! "status")) l ->
  exists u d e, count "up" l = inr u /\ count "down" l = inr d /\ count "error" l = inr e
    /\ (u + d + e <= length l)%nat
    /\ (Forall (status_in ["up"; "down"; "error"]) l -> (u + d + e)%nat = length l).
Proof.
  induction 1 as [|r l [v Hv] _ (u & d & e & Hu & Hd & He & Hle & Heq)]; simpl.
  - exists 0%nat, 0%nat, 0%nat. by split_and!.
  - rewrite Hu, Hd, He. simpl. unfold getitem. rewrite Hv. simpl.
    assert (Hother : status_is "up" v = false -> status_is "down" v = false ->
                     status_is "error" v = false ->
                     ~ status_in ["up"; "down"; "error"] r).
    { intros H1 H2 H3 (s & Hs & Hin). rewrite Hv in Hs. injection Hs as ->. simpl in *.
      repeat (apply elem_of_cons in Hin as [->|Hin]; [done|]). by apply elem_of_nil in Hin. }
    destruct (status_is "up" v) eqn:E1.
    { destruct v as [|t| |]; try done. simpl in E1. apply String.eqb_eq in E1 as ->. simpl.
      exists (S u), d, e. split_and!; [done|done|done|lia|].
      intros [_ Hl]%Forall_cons_1. specialize (Heq Hl). lia. }
    destruct (status_is "down" v) eqn:E2.
    { destruct v as [|t| |]; try done. simpl in E2. apply String.eqb_eq in E2 as ->. simpl.
      exists u, (S d), e. split_and!; [done|done|done|lia|].
      intros [_ Hl]%Forall_cons_1. specialize (Heq Hl). lia. }
    destruct (status_is "error" v) eqn:E3.
    { exists u, d, (S e). split_and!; [done|done|done|lia|].
      intros [_ Hl]%Forall_cons_1. specialize (Heq Hl). lia. }
    exists u, d, e. split_and!; [done|done|done|lia|].
    intros [Hr _]%Forall_cons_1. by destruct (Hother eq_refl eq_refl eq_refl).
Qed.

Lemma counts_cases res :
  (exists h r, res !! h = Some r /\ r !! "status" = None
               /\ counts res = inl (KeyError "status"))
  \/ (map_Forall (fun _ r => is_Some (r !! "status")) res
      /\ exists u d e, counts res = inr (u, d, e)
           /\ (u + d + e <= size res)%nat
           /\ (map_Forall (fun _ r => status_in ["up"; "down"; "error"] r) res ->
               (u + d + e)%nat = size res)).
Proof.
  unfold counts, count_status.
  assert (Hmem : forall r, r ∈ (map_to_list res).*2 <-> exists h, res !! h = Some r).
  { intros r. rewrite list_elem_of_fmap. split.
    - intros ([h r'] & -> & Hin%elem_of_map_to_list). by exists h.
    - intros [h Hh]. exists (h, r). by rewrite elem_of_map_to_list. }
  assert (Hlen : length (map_to_list res).*2 = size res)
    by (by rewrite length_fmap, length_map_to_list).
  destruct (decide (Exists (fun r => r !! "status" = None) (map_to_list res).*2))
    as [Hex|Hall].
  - left. pose proof Hex as Hex'. apply Exists_exists in Hex as (r & Hin & Hr).
    apply Hmem in Hin as [h Hh]. exists h, r. split_and!; [done|done|].
    by rewrite (count_missing "up" _ Hex').
  - right. apply not_Exists_Forall in Hall; [|intros x; apply _].
    assert (Hall' : Forall (fun r => is_Some (r !! "status")) (map_to_list res).*2).
    { eapply Forall_impl; [exact Hall|]. intros r Hr. simpl in Hr.
      by destruct (r !! "status"); [eexists|]. }
    split.
    { intros h r Hh. eapply Forall_forall in Hall'; [exact Hall'|]. apply Hmem. by exists h. }
    destruct (count_present _ Hall') as (u & d & e & Hu & Hd & He & Hle & Heq).
    exists u, d, e. rewrite Hu, Hd, He. simpl. rewrite <- Hlen. split_and!; [done|done|].
    intros H3. apply Heq. apply Forall_forall. intros r [h Hh]%Hmem. by apply (H3 h).
Qed.
End CountFacts.

Section TableFacts.
Context {F : PyFloat}.
Variable pal : palette.
Implicit Types (r : gmap string pyval) (res : gmap string (gmap string pyval)).

Lemma detailed_row_ok names res host :
  map_Forall (fun _ r => renderable r) res ->
  exists line, detailed_row pal names res host = inr line.
Proof.
  intros Hres. unfold detailed_row.
  destruct (res !! host) as [r|] eqn:Er; [|by eexists].
  destruct (Hres host r Er) as ([s Hs] & Hl & [p Hp]).
  unfold getitem. rewrite Hs, Hp. simpl.
  destruct Hl as [->|[x ->]]; simpl; by eexists.
Qed.

Lemma print_rows_ok (row : string -> exn + string) hs :
  (forall h, exists line, row h = inr line) ->
  exists rows, print_rows row hs = (rows, Returned) /\ length rows = length hs.
Proof.
  intros Hrow. induction hs as [|h hs (rows & IH & Hlen)]; simpl; [by exists []|].
  destruct (Hrow h) as [line ->]. rewrite IH. exists (line :: rows). simpl. by rewrite Hlen.
Qed.

Lemma length_sorted {A} (k : A -> sortkey) l : length (sorted k l) = length l.
Proof. apply Permutation_length, sorted_perm. Qed.

Lemma renderable_has_status res :
  map_Forall (fun _ r => renderable r) res ->
  map_Forall (fun _ r => is_Some (r !! "status")) res.
Proof. intros Hres h r Hr. destruct (Hres h r Hr) as ([s Hs] & _). by eexists. Qed.

Lemma counts_ok res :
  map_Forall (fun _ r => is_Some (r !! "status")) res ->
  exists c, counts res = inr c.
Proof.
  intros Hres. destruct (counts_cases res) as [(h & r & Hh & Hr & _)|(_ & u & d & e & -> & _)].
  - destruct (Hres h r Hh) as [v Hv]. congruence.
  - by eexists.
Qed.

Lemma live_line_ok names res host :
  map_Forall (fun _ r => renderable r) res ->
  exists line, live_line pal names res host = inr line.
Proof.
  intros Hres. unfold live_line.
  destruct (res !! host) as [r|] eqn:Er; [|by eexists].
  destruct (Hres host r Er) as ([s Hs] & Hl & [p Hp]).
  unfold getitem. rewrite Hs, Hp. simpl.
  destruct Hl as [->|[x ->]]; simpl;
    destruct (String.eqb s "up"); try destruct (String.eqb s "down"); by eexists.
Qed.

Lemma update_lines_length names res hs : forall i lines,
  length (update_lines pal names res i hs lines).1.1 = length lines.
Proof.
  induction hs as [|h hs IH]; intros i lines; simpl; [done|].
  destruct (i <? length lines)%nat; [|apply IH].
  destruct (live_line pal names res h) as [e|line]; [done|].
  specialize (IH (S i) (<[i := line]> lines)).
  destruct (update_lines pal names res (S i) hs (<[i:=line]> lines)) as [[l' out] c].
  simpl in *. by rewrite IH, length_insert.
Qed.

Lemma update_lines_ok names res hs : forall i lines,
  map_Forall (fun _ r => renderable r) res ->
  (update_lines pal names res i hs lines).2 = Returned.
Proof.
  intros i lines Hres. revert i lines.
  induction hs as [|h hs IH]; intros i lines; simpl; [done|].
  destruct (i <? length lines)%nat; [|apply IH].
  destruct (live_line_ok names res h Hres) as [line ->].
  specialize (IH (S i) (<[i := line]> lines)).
  by destruct (update_lines pal names res (S i) hs (<[i:=line]> lines)) as [[l' out] c].
Qed.

Lemma live_step_lines st c :
  live_header_printed st = true ->
  length (device_lines (live_step pal st c).1.1) = length (device_lines st).
Proof.
  intros Hst. unfold live_step, display_results_live. rewrite Hst. simpl.
  destruct (Qlt_le_dec _ _); [done|].
  destruct (nonempty (call_results c)); [|done].
  pose proof (update_lines_length (call_names c) (call_results c)
                (sorted ip_to_int (call_hosts c)) 0 (device_lines st)) as Hl.
  destruct (update_lines _ _ _ _ _ _) as [[lines out] [|e]]; simpl in *; [|done].
  by destruct (counts (call_results c)) as [e|[[? ?] ?]].
Qed.

Lemma live_step_ok st c :
  map_Forall (fun _ r => renderable r) (call_results c) ->
  (live_step pal st c).2 = Returned.
Proof.
  intros Hres. unfold live_step, display_results_live.
  destruct (live_header_printed st); simpl; [|done].
  destruct (Qlt_le_dec _ _); [done|].
  destruct (nonempty (call_results c)); [|done].
  pose proof (update_lines_ok (call_names c) (call_results c)
                (sorted ip_to_int (call_hosts c)) 0 (device_lines st) Hres) as Hl.
  destruct (update_lines _ _ _ _ _ _) as [[lines out] k]; simpl in *. subst k.
  destruct (counts_ok _ (renderable_has_status _ Hres)) as [[[u d] e] ->]. done.
Qed.

Lemma live_run_lines st cs :
  live_header_printed st = true ->
  length (device_lines (live_run pal st cs)) = length (device_lines st).
Proof.
  revert st. induction cs as [|c cs IH]; intros st Hst; simpl; [done|].
  rewrite IH by apply live_step_header. by apply live_step_lines.
Qed.

Lemma device_marks_ok (mark : string -> exn + option string) hs :
  (forall h, exists m, mark h = inr m) ->
  exists ms, device_marks mark hs = inr ms /\ (length ms <= length hs)%nat.
Proof.
  intros Hm. induction hs as [|h hs (ms & IH & Hlen)]; simpl; [by exists []|].
  destruct (Hm h) as [m ->]. simpl. rewrite IH. simpl.
  destruct m; eexists; split; try done; simpl; lia.
Qed.

Lemma simple_mark_ok names res host :
  map_Forall (fun _ r => is_Some (r !! "status")) res ->
  exists m, simple_mark pal names res host = inr m.
Proof.
  intros Hres. unfold simple_mark. destruct (res !! host) as [r|] eqn:Er; [|by eexists].
  destruct (Hres host r Er) as [v Hv]. unfold getitem. rewrite Hv. simpl. by eexists.
Qed.

Lemma compact_mark_ok names res host :
  map_Forall (fun _ r => is_Some (r !! "status")) res ->
  exists m, compact_mark pal names res host = inr m.
Proof.
  intros Hres. unfold compact_mark. destruct (res !! host) as [r|] eqn:Er; [|by eexists].
  destruct (Hres host r Er) as [v Hv]. unfold getitem. rewrite Hv. simpl. by eexists.
Qed.
End TableFacts.

(** X16.  The counts of the summary: if some record of the table has
    no status the count raises [KeyError]; otherwise the numbers of 'up',
    'down' and 'error' add up to no more than the number of entries, and
    to exactly that number when every status is one of the three. *)
Theorem counts_add_up `{PyFloat} (results : gmap string (gmap string pyval)) :
  (exists h r, results !! h = Some r /\ r !! "status" = None
               /\ counts results = inl (KeyError "status"))
  \/ (map_Forall (fun _ r => is_Some (r !! "status")) results
      /\ exists u d e, counts results = inr (u, d, e)
           /\ (u + d + e <= size results)%nat
           /\ (map_Forall (fun _ r => status_in ["up"; "down"; "error"] r) results ->
               (u + d + e)%nat = size results)).
Proof. apply counts_cases. Qed.

(** X17.  On a table that is not empty and whose records can all be
    printed, the Detailed renderer returns and prints the summary, one
    row for every host of the list, with or without a result, and the
    closing empty line. *)
Theorem detailed_prints_every_host `{PyFloat} (pal : palette) (now : string)
    (hosts : list string) (names : gmap string string)
    (results : gmap string (gmap string pyval)) :
  map_Forall (fun _ r => renderable r) results ->
  nonempty results = true ->
  exists out, display_results_detailed pal now hosts names results = (out, Returned)
              /\ length out = (length hosts + 2)%nat.
Proof.
  intros Hres Hne. unfold display_results_detailed. rewrite Hne.
  destruct (counts_ok _ (renderable_has_status _ Hres)) as [c ->].
  destruct (print_rows_ok (detailed_row pal names results) (sorted ip_to_int hosts))
    as (rows & -> & Hlen); [intros h; by apply detailed_row_ok|].
  eexists. split; [done|]. simpl. rewrite length_app, Hlen, length_sorted. simpl. lia.
Qed.

(** X18.  Once the live renderer has printed its header, the number of
    rows it keeps never changes, whatever hosts, names and results the
    later calls are given. *)
Theorem live_table_never_grows `{PyFloat} (pal : palette) (st : live_state)
    (cs : list live_call) :
  live_header_printed st = true ->
  length (device_lines (live_run pal st cs)) = length (device_lines st).
Proof. apply live_run_lines. Qed.

(** X19.  The live renderer returns, in any of its states, on a table
    whose records can all be printed. *)
Theorem live_renderer_returns `{PyFloat} (pal : palette) (st : live_state) (c : live_call) :
  map_Forall (fun _ r => renderable r) (call_results c) ->
  (live_step pal st c).2 = Returned.
Proof. apply live_step_ok. Qed.

(** X20.  The Simple and the Compact renderer print at most one line,
    none for an empty table, and exactly one, returning, for a table that
    is not empty and whose records all have a status. *)
Theorem one_line_renderers `{PyFloat} (pal : palette) (now : string)
    (hosts : list string) (names : gmap string string)
    (results : gmap string (gmap string pyval)) :
  (length (display_results_simple pal now hosts names results).1 <= 1)%nat
  /\ (length (display_results_compact pal now hosts names results).1 <= 1)%nat
  /\ (nonempty results = false ->
      display_results_simple pal now hosts names results = ([], Returned)
      /\ display_results_compact pal now hosts names results = ([], Returned))
  /\ (nonempty results = true ->
      map_Forall (fun _ r => is_Some (r !! "status")) results ->
      (exists line, display_results_simple pal now hosts names results
                    = ([line], Returned))
      /\ (exists line, display_results_compact pal now hosts names results
                       = ([line], Returned))).
Proof.
  unfold display_results_simple, display_results_compact. split_and!.
  - destruct (nonempty results); [|simpl; lia].
    destruct (counts results) as [e|[[u d] e]]; [simpl; lia|].
    destruct (device_marks _ _) as [e'|[|m ms]]; simpl; lia.
  - destruct (nonempty results); [|simpl; lia].
    destruct (counts results) as [e|[[u d] e]]; [simpl; lia|].
    destruct (device_marks _ _) as [e'|[|m ms]]; simpl; lia.
  - by intros ->.
  - intros -> Hres. destruct (counts_ok _ Hres) as [[[u d] e] ->]. split.
    + destruct (device_marks_ok (simple_mark pal names results)
                  (take 5 (sorted ip_to_int hosts))) as (ms & -> & _);
        [intros h; by apply simple_mark_ok|].
      destruct ms; by eexists.
    + destruct (device_marks_ok (compact_mark pal names results)
                  (take 3 (sorted ip_to_int hosts))) as (ms & -> & _);
        [intros h; by apply compact_mark_ok|].
      destruct ms; by eexists.
Qed.

(** ** Display order, widths and the command line *)

Section OrderMore.
Context {A : Type} (k : A -> sortkey).

Lemma sorted_of_sorted l : StronglySorted (key_rel k) l -> sorted k l = l.
Proof.
  induction 1 as [|x l Hl IH Hx]; simpl; [done|]. rewrite IH.
  destruct l as [|y l]; simpl; [done|].
  apply Forall_cons_1 in Hx as [Hxy _]. unfold key_rel, key_le in Hxy. by rewrite Hxy.
Qed.

Lemma sorted_take n l : StronglySorted (key_rel k) l -> StronglySorted (key_rel k) (take n l).
Proof.
  intros Hl. rewrite <- (take_drop n l) in Hl. by apply StronglySorted_app_1_l in Hl.
Qed.
End OrderMore.

Section WidthFacts.
Lemma str_length_app s t : String.length (s +:+ t) = (String.length s + String.length t)%nat.
Proof. induction s as [|c s IH]; simpl; [done|]. by rewrite IH. Qed.

Lemma length_repeat c n : String.length (Py.repeat c n) = n.
Proof. induction n as [|n IH]; simpl; [done|]. by rewrite IH. Qed.

Lemma length_take_str n s : String.length (Py.take n s) = Nat.min n (String.length s).
Proof.
  revert s. induction n as [|n IH]; intros [|c s]; simpl; try done. by rewrite IH.
Qed.

Lemma length_ljust w s : String.length (Py.ljust w s) = Nat.max w (String.length s).
Proof. unfold Py.ljust. rewrite str_length_app, length_repeat. lia. Qed.

Lemma length_short_name name : (String.length (short_name name) <= 14)%nat.
Proof.
  unfold short_name. destruct (Nat.ltb_spec 14 (String.length name)); [|done].
  rewrite str_length_app, length_take_str.
  change (String.length "...") with 3%nat. lia.
Qed.

Lemma digits_value_bounds s : forall acc,
  (0 <= acc)%Z -> Py.all Py.isdigit s = true -> (acc <= Py.digits_value acc s)%Z.
Proof.
  induction s as [|c s IH]; intros acc Hacc; simpl; [lia|].
  intros [Hc Hs]%andb_true_iff.
  assert (0 <= Z.of_nat (nat_of_ascii c) - 48)%Z as Hd.
  { unfold Py.isdigit in Hc. apply andb_true_iff in Hc as [Hc _].
    apply Nat.leb_le in Hc. lia. }
  specialize (IH (10 * acc + (Z.of_nat (nat_of_ascii c) - 48))%Z ltac:(lia) Hs). lia.
Qed.
End WidthFacts.

(** X21.  Hosts in display order stay as they are when sorted again,
    and so does any leading part of them; sorting keeps the number of
    hosts. *)
Theorem display_order_is_settled (l : list string) :
  sorted ip_to_int (sorted ip_to_int l) = sorted ip_to_int l
  /\ (forall n, sorted ip_to_int (take n (sorted ip_to_int l)) = take n (sorted ip_to_int l))
  /\ length (sorted ip_to_int l) = length l.
Proof.
  split_and!.
  - apply sorted_of_sorted, sorted_sorted.
  - intros n. apply sorted_of_sorted, sorted_take, sorted_sorted.
  - apply Permutation_length, sorted_perm.
Qed.

(** X22.  The Simple renderer reads the hosts only through the first
    five in display order, the Compact renderer through the first three:
    the other hosts change nothing of what is printed. *)
Theorem one_line_renderers_read_the_first_hosts `{PyFloat} (pal : palette) (now : string)
    (hosts : list string) (names : gmap string string)
    (results : gmap string (gmap string pyval)) :
  display_results_simple pal now hosts names results
  = display_results_simple pal now (take 5 (sorted ip_to_int hosts)) names results
  /\ display_results_compact pal now hosts names results
     = display_results_compact pal now (take 3 (sorted ip_to_int hosts)) names results.
Proof.
  unfold display_results_simple, display_results_compact.
  assert (Hs : forall n, take n (sorted ip_to_int (take n (sorted ip_to_int hosts)))
                         = take n (sorted ip_to_int hosts)).
  { intros n. rewrite sorted_of_sorted by apply sorted_take, sorted_sorted.
    by rewrite take_take, Nat.min_id. }
  by rewrite !Hs.
Qed.

(** X23.  The placeholder row of the live table is 67 characters wide
    for every host of at most 18 characters, whatever its display name:
    the name column holds at most 14 characters of it. *)
Theorem live_rows_have_a_fixed_width (names : gmap string string) (host : string) :
  (String.length host <= 18)%nat ->
  String.length (waiting_line names host) = 67%nat
  /\ (String.length (short_name (display_name names host)) <= 14)%nat.
Proof.
  intros Hh. pose proof (length_short_name (display_name names host)) as Hn.
  split; [|done]. unfold waiting_line.
  rewrite !str_length_app, !length_ljust. simpl. lia.
Qed.

(** X24.  Between dotted quads whose second, third and fourth fields
    are below 256, the display order is the order of the four numbers
    read from left to right. *)
Theorem octets_sort_left_to_right (s a b c d s' a' b' c' d' : string) :
  dotted_quad s a b c d -> dotted_quad s' a' b' c' d' ->
  octet b -> octet c -> octet d -> octet b' -> octet c' -> octet d' ->
  key_le (ip_to_int s) (ip_to_int s')
  <-> lex4_le (Py.digits_value 0 a) (Py.digits_value 0 b) (Py.digits_value 0 c)
              (Py.digits_value 0 d) (Py.digits_value 0 a') (Py.digits_value 0 b')
              (Py.digits_value 0 c') (Py.digits_value 0 d').
Proof.
  intros Hq Hq' [[_ Hb] Hb2] [[_ Hc] Hc2] [[_ Hd] Hd2] [[_ Hb'] Hb2'] [[_ Hc'] Hc2']
    [[_ Hd'] Hd2'].
  rewrite (proj2 (ip_to_int_shape s (quad_value a b c d)))
    by (by exists a, b, c, d).
  rewrite (proj2 (ip_to_int_shape s' (quad_value a' b' c' d')))
    by (by exists a', b', c', d').
  destruct Hq as (_ & [_ Ha] & _). destruct Hq' as (_ & [_ Ha'] & _).
  pose proof (digits_value_bounds a 0 ltac:(lia) Ha).
  pose proof (digits_value_bounds b 0 ltac:(lia) Hb).
  pose proof (digits_value_bounds c 0 ltac:(lia) Hc).
  pose proof (digits_value_bounds d 0 ltac:(lia) Hd).
  pose proof (digits_value_bounds a' 0 ltac:(lia) Ha').
  pose proof (digits_value_bounds b' 0 ltac:(lia) Hb').
  pose proof (digits_value_bounds c' 0 ltac:(lia) Hc').
  pose proof (digits_value_bounds d' 0 ltac:(lia) Hd').
  unfold key_le, key_leb, quad_value, lex4_le.
  rewrite Z.leb_le, !Z.shiftl_mul_pow2 by lia.
  change (2 ^ 24)%Z with 16777216%Z. change (2 ^ 16)%Z with 65536%Z.
  change (2 ^ 8)%Z with 256%Z. lia.
Qed.

Section StartupFacts.

Lemma assign_names_other names hosts : forall i acc h,
  h ∉ hosts -> assign_names names i hosts acc !! h = acc !! h.
Proof.
  induction hosts as [|h0 hosts IH]; intros i acc h Hh; simpl; [done|].
  rewrite IH by set_solver.
  destruct (names !! i); [|done]. apply lookup_insert_ne. set_solver.
Qed.

Lemma assign_names_last names hosts : forall i acc j h n,
  hosts !! j = Some h ->
  (forall j', (j < j')%nat -> hosts !! j' <> Some h) ->
  names !! (i + j)%nat = Some n ->
  assign_names names i hosts acc !! h = Some n.
Proof.
  induction hosts as [|h0 hosts IH]; intros i acc j h n Hj Hlast Hn; [done|].
  destruct j as [|j]; simpl in *.
  - injection Hj as ->. rewrite Nat.add_0_r in Hn. rewrite Hn.
    rewrite assign_names_other; [apply lookup_insert_eq|].
    intros [j' Hj']%list_elem_of_lookup. apply (Hlast (S j')); [lia|done].
  - apply (IH (S i) _ j); [done| |by rewrite Nat.add_succ_l, <- Nat.add_succ_r].
    intros j' Hlt. apply (Hlast (S j')). lia.
Qed.

Lemma assign_names_dom names hosts : forall i acc h,
  is_Some (assign_names names i hosts acc !! h) -> is_Some (acc !! h) \/ h ∈ hosts.
Proof.
  induction hosts as [|h0 hosts IH]; intros i acc h Hs; simpl in *; [by left|].
  destruct (IH _ _ _ Hs) as [Hi|Hi]; [|right; set_solver].
  destruct (names !! i); [|by left].
  destruct (decide (h0 = h)) as [->|Hne]; [right; set_solver|].
  left. by rewrite lookup_insert_ne in Hi.
Qed.
End StartupFacts.

(** X25.  With hosts and as many names on the command line and no
    file, the start-up keeps the hosts with the repetitions dropped, and a
    host is shown under the name at the position of its last occurrence;
    names go to listed hosts only. *)
Theorem command_line_names (a : arguments) (r : read_outcome) (j : nat) (h n : string) :
  no_file a = true ->
  length (arg_names a) = length (arg_hosts a) ->
  arg_hosts a !! j = Some h ->
  (forall j', (j < j')%nat -> arg_hosts a !! j' <> Some h) ->
  arg_names a !! j = Some n ->
  exists names,
    startup a r = (inr (fromkeys (arg_hosts a), names), [])
    /\ display_name names h = n
    /\ (forall h', is_Some (names !! h') -> h' ∈ arg_hosts a).
Proof.
  intros Hf Hlen Hj Hlast Hn.
  exists (assign_names (arg_names a) 0 (arg_hosts a) ∅). split_and!.
  - unfold startup, parse_arguments. rewrite Hf, Hlen, Nat.eqb_refl.
    destruct (arg_hosts a) as [|h0 hs] eqn:Eh; [done|].
    cbn [length Nat.eqb andb negb]. by rewrite Hf, Eh.
  - unfold display_name. by rewrite (assign_names_last _ _ 0 ∅ j h n).
  - intros h' Hs. apply assign_names_dom in Hs as [[? Hs]|Hs]; [|done].
    by rewrite lookup_empty in Hs.
Qed.

(** X26.  When hosts and names are given and their numbers differ,
    the start-up leaves with exit status 2 before anything is read, also
    when a hosts file is named. *)
Theorem mismatched_names_stop_the_start (a : arguments) (r : read_outcome) :
  arg_hosts a <> [] -> arg_names a <> [] ->
  length (arg_hosts a) <> length (arg_names a) ->
  startup a r = (inl (SystemExit 2), []).
Proof.
  intros Hh Hn Hlen. unfold startup, parse_arguments.
  destruct (arg_hosts a) as [|h hs]; [done|].
  destruct (arg_names a) as [|n ns]; [done|].
  cbn [length Nat.eqb andb negb].
  by rewrite (proj2 (Nat.eqb_neq (length hs) (length ns))) by (simpl in Hlen; lia).
Qed.

(** ** The further properties on the sample runs *)

Lemma hosts_file_entries_are_stripped_sample :
  (read_hosts_from_file "hosts.txt" (ReadLines Sample.hosts_file)).1
  = inr (["10.0.0.1"; "10.0.0.2"], {[ "10.0.0.1" := "alpha" ]})
  /\ Forall (fun h => Py.strip h = h) ["10.0.0.1"; "10.0.0.2"].
Proof.
  assert (Hr : (read_hosts_from_file "hosts.txt" (ReadLines Sample.hosts_file)).1
               = inr (["10.0.0.1"; "10.0.0.2"], {[ "10.0.0.1" := "alpha" ]}))
    by (by vm_compute).
  split; [exact Hr|].
  exact (proj1 (hosts_file_entries_are_stripped "hosts.txt" Sample.hosts_file
                  ["10.0.0.1"; "10.0.0.2"] {[ "10.0.0.1" := "alpha" ]} Hr)).
Defined.

Lemma reload_leaves_current_hosts_only_sample :
  hosts (check_file_changes Sample.rewritten Sample.watching).1.1
  = [Sample.host_b; Sample.host_c].
Proof.
  assert (Hr : reload_reads Sample.rewritten Sample.watching
                 [Sample.host_b; Sample.host_c] ∅).
  { split; [reflexivity|]. split; [reflexivity|]. split; [|discriminate].
    exists 2%Q, [Sample.host_b; Sample.host_c].
    split; [reflexivity|]. split; [reflexivity|]. split; reflexivity. }
  assert (Hd : [Sample.host_b; Sample.host_c] <> hosts Sample.watching) by discriminate.
  exact (proj1 (reload_leaves_current_hosts_only Sample.rewritten Sample.watching
                  [Sample.host_b; Sample.host_c] ∅ Hr (or_introl Hd))).
Defined.

Lemma up_means_ping_succeeded_sample :
  (ping_host Sample.linux Sample.answers Sample.host_a).1 !! "status" = Some (VStr "up")
  /\ (ping_host Sample.linux Sample.answers Sample.host_a).1 !! "message" = Some (VStr "").
Proof.
  assert (Hup : (ping_host Sample.linux Sample.answers Sample.host_a).1 !! "status"
                = Some (VStr "up")) by reflexivity.
  split; [exact Hup|].
  apply (up_means_ping_succeeded Sample.linux Sample.answers Sample.host_a Hup).
Defined.

Lemma failed_ping_record_sample :
  ping_command Sample.linux Sample.host_b
  = inr ["ping"; "-c"; "1"; "-W"; "1"; Sample.host_b]
  /\ (ping_host Sample.linux Sample.silent Sample.host_b).1 !! "latency" = Some VNone.
Proof.
  assert (Hc : ping_command Sample.linux Sample.host_b
               = inr ["ping"; "-c"; "1"; "-W"; "1"; Sample.host_b]) by reflexivity.
  split; [exact Hc|].
  apply (failed_ping_record Sample.linux Sample.silent Sample.host_b
           ["ping"; "-c"; "1"; "-W"; "1"; Sample.host_b] 2 "" "");
    [reflexivity|exact Hc|reflexivity|discriminate].
Defined.

Lemma cleared_flag_stops_the_turn_sample :
  running_seen (Tour.stopped_after_one 1) = false
  /\ probe_loop Sample.linux Tour.stopped_after_one 0
       [Sample.host_a; Sample.host_b; Sample.host_c] ∅
     = probe_loop Sample.linux Tour.stopped_after_one 0
         (take 1 [Sample.host_a; Sample.host_b; Sample.host_c]) ∅.
Proof.
  split; [reflexivity|].
  apply (cleared_flag_stops_the_turn Sample.linux Tour.stopped_after_one
           [Sample.host_a; Sample.host_b; Sample.host_c] ∅ 1);
    [simpl; lia|reflexivity].
Defined.

Lemma sample_table_keyed : keyed_by_host (results Sample.watching).
Proof.
  intros h r Hr. simpl in Hr.
  apply lookup_insert_Some in Hr as [[<- <-]|[_ Hr]]; [reflexivity|].
  apply lookup_insert_Some in Hr as [[<- <-]|[_ Hr]]; [reflexivity|].
  by rewrite lookup_empty in Hr.
Defined.

Lemma sample_table_renderable : map_Forall (fun _ r => renderable r) (results Sample.watching).
Proof.
  simpl. apply map_Forall_insert_2; [apply ping_host_renderable|].
  apply map_Forall_insert_2; [apply ping_host_renderable|]. apply map_Forall_empty.
Defined.

Lemma table_stays_well_formed_sample :
  keyed_by_host (results Sample.watching)
  /\ keyed_by_host
       (results (poll_cycle Sample.linux Sample.rewritten Sample.second_fails []
                   Sample.watching).1.1.1).
Proof.
  split; [exact sample_table_keyed|].
  apply (proj1 (table_stays_well_formed Sample.linux Sample.rewritten Sample.second_fails
                  [] Sample.watching sample_table_keyed sample_table_renderable)).
Defined.

Lemma one_resolution_per_host_in_order_sample :
  List.filter is_resolve
    (probe_loop Sample.linux Sample.second_fails 0
       [Sample.host_a; Sample.host_b; Sample.host_c] ∅).2
  = map EvResolve [Sample.host_a; Sample.host_b; Sample.host_c].
Proof.
  apply (proj1 (one_resolution_per_host_in_order Sample.linux Sample.second_fails
                  [Sample.host_a; Sample.host_b; Sample.host_c] ∅
                  (fun j _ => eq_refl))).
Defined.

Lemma one_result_renderable : map_Forall (fun _ r => renderable r) Sample.one_result.
Proof. apply map_Forall_singleton, ping_host_renderable. Defined.

Lemma detailed_prints_every_host_sample :
  nonempty Sample.one_result = true
  /\ exists out,
       display_results_detailed no_colour Sample.at_noon [Sample.host_a; Sample.host_b] ∅
         Sample.one_result = (out, Returned)
       /\ length out = 4%nat.
Proof.
  split; [reflexivity|].
  apply (detailed_prints_every_host no_colour Sample.at_noon [Sample.host_a; Sample.host_b]
           ∅ Sample.one_result one_result_renderable eq_refl).
Defined.

Lemma live_table_never_grows_sample :
  live_header_printed Tour.header_shown = true
  /\ length (device_lines
               (live_run no_colour Tour.header_shown
                  [Sample.live_call_at (6 # 10) Sample.just_after_noon Sample.one_result;
                   Sample.live_call_at 2 Sample.a_second_later Sample.one_result]))
     = length (device_lines Tour.header_shown).
Proof.
  split; [reflexivity|].
  apply (live_table_never_grows no_colour Tour.header_shown _ eq_refl).
Defined.

Lemma live_renderer_returns_sample :
  (live_step no_colour Tour.header_shown
     (Sample.live_call_at (6 # 10) Sample.just_after_noon Sample.one_result)).2 = Returned.
Proof.
  apply (live_renderer_returns no_colour Tour.header_shown
           (Sample.live_call_at (6 # 10) Sample.just_after_noon Sample.one_result)
           one_result_renderable).
Defined.

Lemma live_rows_have_a_fixed_width_sample :
  (String.length "10.0.0.1" <= 18)%nat
  /\ String.length (waiting_line {[ "10.0.0.1" := "a-rather-long-display-name" ]} "10.0.0.1")
     = 67%nat.
Proof.
  assert (Hh : (String.length "10.0.0.1" <= 18)%nat) by (simpl; lia).
  split; [exact Hh|].
  apply (proj1 (live_rows_have_a_fixed_width
                  {[ "10.0.0.1" := "a-rather-long-display-name" ]} "10.0.0.1" Hh)).
Defined.

Lemma octets_sort_left_to_right_sample :
  dotted_quad "9.255.0.1" "9" "255" "0" "1"
  /\ dotted_quad "10.0.0.1" "10" "0" "0" "1"
  /\ (key_le (ip_to_int "9.255.0.1") (ip_to_int "10.0.0.1")
      <-> lex4_le 9 255 0 1 10 0 0 1).
Proof.
  assert (H1 : dotted_quad "9.255.0.1" "9" "255" "0" "1").
  { split; [reflexivity|]. repeat split; try discriminate; reflexivity. }
  assert (H2 : dotted_quad "10.0.0.1" "10" "0" "0" "1").
  { split; [reflexivity|]. repeat split; try discriminate; reflexivity. }
  split; [exact H1|]. split; [exact H2|].
  apply (octets_sort_left_to_right _ _ _ _ _ _ _ _ _ _ H1 H2);
    (split; [split; [discriminate|reflexivity]|reflexivity]).
Defined.

Lemma command_line_names_sample :
  exists names,
    startup Tour.two_named (ReadLines []) = (inr (fromkeys ["10.0.0.1"; "gw"], names), [])
    /\ display_name names "gw" = "gateway"
    /\ (forall h', is_Some (names !! h') -> h' ∈ ["10.0.0.1"; "gw"]).
Proof.
  apply (command_line_names Tour.two_named (ReadLines []) 1 "gw" "gateway");
    [reflexivity|reflexivity|reflexivity| |reflexivity].
  intros [|[|j']] Hlt; [lia|lia|discriminate].
Defined.

Lemma mismatched_names_stop_the_start_sample :
  length (arg_hosts Tour.one_name_short) <> length (arg_names Tour.one_name_short)
  /\ startup Tour.one_name_short (ReadLines Sample.hosts_file) = (inl (SystemExit 2), []).
Proof.
  assert (Hl : length (arg_hosts Tour.one_name_short)
               <> length (arg_names Tour.one_name_short)) by discriminate.
  split; [exact Hl|].
  apply (mismatched_names_stop_the_start Tour.one_name_short (ReadLines Sample.hosts_file));
    [discriminate|discriminate|exact Hl].
Defined.
